(** * pH monitor firmware: calibration engine, sampler and smoother

    A shallow embedding of the three ESP32 sketches of the repository:

    - [TwoPage]   : linear_ph_twopage.ino (one line / two lines, raw and
                    smoothed reads separated);
    - [Quadratic] : the 2-point line / 3-point quadratic sketch;
    - [Part000]   : the earlier piecewise sketch (its segment selection).

    The C++ type [float] is kept abstract behind the interface [FloatOps],
    so every function of the firmware is written once.  Two readings of
    the interface are given:

    - [binary32] : IEEE-754 single precision, round to nearest even, as
                   specified by the standard library's [SpecFloat]
                   (precision 24, maximal exponent 128).  This is what the
                   ESP32 computes, each C++ operation rounding once (a
                   product and a sum are not fused).
    - [exactQ]   : exact rational arithmetic, with [None] standing for NaN.
                   It is the idealised reading used for algebraic facts. *)

From Stdlib Require Import ZArith QArith Qabs Lqa Lia Bool List Permutation.
From Stdlib Require Import Floats.SpecFloat.
From stdpp Require Import gmap strings.

Local Open Scope Z_scope.

(** ** The arithmetic interface *)

Class FloatOps (F : Type) := {
  fadd : F -> F -> F;
  fsub : F -> F -> F;
  fmul : F -> F -> F;
  fdiv : F -> F -> F;
  fneg : F -> F;
  fabs : F -> F;
  (** [flt a b] is the C++ test [a < b]; [fle a b] is [a <= b]. *)
  flt : F -> F -> bool;
  fle : F -> F -> bool;
  fisnan : F -> bool;
  NAN : F;
  (** [flit n d] is the decimal literal whose value is [n/d]. *)
  flit : Z -> positive -> F
}.

Declare Scope fl_scope.
Delimit Scope fl_scope with fl.
Notation "x + y" := (fadd x y) : fl_scope.
Notation "x - y" := (fsub x y) : fl_scope.
Notation "x * y" := (fmul x y) : fl_scope.
Notation "x / y" := (fdiv x y) : fl_scope.
Notation "- x" := (fneg x) : fl_scope.
Notation "x <? y" := (flt x y) : fl_scope.
Notation "x <=? y" := (fle x y) : fl_scope.
Notation "x >? y" := (flt y x) : fl_scope.
Notation "x >=? y" := (fle y x) : fl_scope.

(** *** IEEE-754 binary32 *)

Definition prec : Z := 24.
Definition emax : Z := 128.

(** An integer converted to [float]. *)
Definition Z2B (z : Z) : spec_float := binary_normalize prec emax z 0 false.

(** A decimal literal [n/d]: both [n] and [d] are below [2^24] (or a power
    of two times such a number) for every literal of the sketches, hence
    exactly representable, and the correctly rounded quotient is the float
    nearest to the decimal value, which is what the compiler stores. *)
Definition b32_lit (n : Z) (d : positive) : spec_float :=
  SFdiv prec emax (Z2B n) (Z2B (Zpos d)).

Definition b32_isnan (x : spec_float) : bool :=
  match x with S754_nan => true | _ => false end.

#[export] Instance binary32 : FloatOps spec_float := {|
  fadd := SFadd prec emax;
  fsub := SFsub prec emax;
  fmul := SFmul prec emax;
  fdiv := SFdiv prec emax;
  fneg := SFopp;
  fabs := SFabs;
  flt := SFltb;
  fle := SFleb;
  fisnan := b32_isnan;
  NAN := S754_nan;
  flit := b32_lit
|}.

(** The exact value of a finite float, for stating tolerances. *)
Definition B2Q (x : spec_float) : option Q :=
  match x with
  | S754_zero _ => Some 0%Q
  | S754_finite s m e =>
      let sm := if s then Zneg m else Zpos m in
      Some (match e with
            | Zneg p => sm # (2 ^ p)
            | _ => (sm * 2 ^ e) # 1
            end)
  | _ => None
  end.

(** [within tol target x]: [x] is a finite float and [|x - target| <= tol]. *)
Definition within (tol target : Q) (x : spec_float) : bool :=
  match B2Q x with
  | Some q => Qle_bool (Qabs (q - target)) tol
  | None => false
  end.

(** *** Exact rational arithmetic, [None] for NaN *)

Definition lift2 (f : Q -> Q -> Q) (a b : option Q) : option Q :=
  match a, b with
  | Some x, Some y => Some (f x y)
  | _, _ => None
  end.

Definition exact_div (a b : option Q) : option Q :=
  match a, b with
  | Some x, Some y => if Qeq_bool y 0 then None else Some (x / y)%Q
  | _, _ => None
  end.

Definition exact_lt (a b : option Q) : bool :=
  match a, b with
  | Some x, Some y => negb (Qle_bool y x)
  | _, _ => false
  end.

Definition exact_le (a b : option Q) : bool :=
  match a, b with
  | Some x, Some y => Qle_bool x y
  | _, _ => false
  end.

#[export] Instance exactQ : FloatOps (option Q) := {|
  fadd := lift2 Qplus;
  fsub := lift2 Qminus;
  fmul := lift2 Qmult;
  fdiv := exact_div;
  fneg := option_map Qopp;
  fabs := option_map Qabs;
  flt := exact_lt;
  fle := exact_le;
  fisnan := fun a => match a with None => true | Some _ => false end;
  NAN := None;
  flit := fun n d => Some (n # d)
|}.

(** ** What the sketches share with the Arduino core *)

(** A value stored by [Preferences] (the NVS key-value store). *)
Inductive pref_value (F : Type) : Type :=
  | PBool (b : bool)
  | PFloat (x : F).
Arguments PBool {F} b.
Arguments PFloat {F} x.

Section Preferences.
Context {F : Type}.

(** [prefs.getBool(key, def)] and [prefs.getFloat(key, def)]: the stored
    value, or [def] when the key is absent (or holds another type). *)
Definition getBool (nvs : gmap string (pref_value F)) (key : string) (def : bool) : bool :=
  match nvs !! key with
  | Some (PBool b) => b
  | _ => def
  end.

Definition getFloat (nvs : gmap string (pref_value F)) (key : string) (def : F) : F :=
  match nvs !! key with
  | Some (PFloat x) => x
  | _ => def
  end.

Definition putBool (key : string) (b : bool) (nvs : gmap string (pref_value F))
  : gmap string (pref_value F) := <[key := PBool b]> nvs.

Definition putFloat (key : string) (x : F) (nvs : gmap string (pref_value F))
  : gmap string (pref_value F) := <[key := PFloat x]> nvs.
End Preferences.

(** [server.send(code, type, body)]. *)
Record response : Type := Send { status : Z; ctype : string; body : string }.

(** The error kinds of the specification, and the message by which each
    sketch reports them (HTTP status 400). *)
Inductive FitError : Type :=
  | InvalidInput
  | DegenerateFit
  | SingularFit
  | MissingArgument.

Definition error_kind (r : response) : option FitError :=
  if negb (status r =? 400) then None
  else if String.eqb (body r) "Voltages must be > 0" then Some InvalidInput
  else if String.eqb (body r) "v4 and v7 too close (bad calibration)" then Some DegenerateFit
  else if String.eqb (body r) "Two voltages are too close (bad 3-point)" then Some DegenerateFit
  else if String.eqb (body r) "Could not solve quadratic (check voltages)" then Some SingularFit
  else if String.eqb (body r) "Missing v4 or v7" then Some MissingArgument
  else if String.eqb (body r) "Missing v4 or v7 or v9" then Some MissingArgument
  else if String.eqb (body r) "Missing v7 or v4" then Some MissingArgument
  else if String.eqb (body r) "Missing v7 or v4 or v9" then Some MissingArgument
  else None.

(** The trimmed-mean loop of every [readVoltageRawTrimmed] / [readPHVoltage]
    (INA226 branch): [src i] is the value returned by the [i]-th call of
    [ina226.getBusVoltage_V()] during this pass. *)
Section TrimmedLoop.
Context {F : Type} {O : FloatOps F}.
Local Open Scope fl_scope.

(** One iteration: [sum += a; if (a < mn) mn = a; if (a > mx) mx = a;]. *)
Definition trim_step (src : nat -> F) (acc : F * F * F) (i : nat) : F * F * F :=
  let '(sum, mn, mx) := acc in
  let a := src i in
  let sum := sum + a in
  let mn := if a <? mn then a else mn in
  let mx := if a >? mx then a else mx in
  (sum, mn, mx).

(** [for (int i = 0; i < N; i++) ...] from
    [sum = 0.0f, mn = 1e9f, mx = -1e9f]. *)
Definition trim_loop (N : nat) (src : nat -> F) : F * F * F :=
  fold_left (trim_step src) (seq 0 N)
    (flit 0 1, flit 1000000000 1, - flit 1000000000 1).

(** [sum -= mn; sum -= mx; return sum / (float)(N - 2);] *)
Definition trimmed_mean (N : nat) (src : nat -> F) : F :=
  let '(sum, mn, mx) := trim_loop N src in
  let sum := sum - mn in
  let sum := sum - mx in
  sum / flit (Z.of_nat N - 2) 1.

(** [if (isnan(filt)) filt = v; filt = filt + ALPHA * (v - filt); return filt;]
    The pair is (new filter state, returned value). *)
Definition iir_update (alpha filt v : F) : F * F :=
  let filt := if fisnan filt then v else filt in
  let filt := filt + alpha * (v - filt) in
  (filt, filt).
End TrimmedLoop.

(** ** linear_ph_twopage.ino *)

Module TwoPage.
Section Firmware.
Context {F : Type} {O : FloatOps F}.
Local Open Scope fl_scope.

Definition MAIN_ALPHA : F := flit 15 100.
Definition PH7 : F := flit 700 100.
Definition PH4 : F := flit 401 100.
Definition PH9 : F := flit 918 100.

(** The global variables of the sketch. *)
Record Globals : Type := {
  useTwoLines : bool;
  typicalDirection : bool;
  v7_break : F;
  mLow : F;
  bLow : F;
  mHigh : F;
  bHigh : F;
  filtV_main : F
}.

(** Their initialisers. *)
Definition boot_globals : Globals := {|
  useTwoLines := false;
  typicalDirection := true;
  v7_break := flit 2100 1000;
  mLow := - flit 249 100;
  bLow := flit 104725 10000;
  mHigh := - flit 249 100;
  bHigh := flit 104725 10000;
  filtV_main := NAN
|}.

(** The board: global variables and the [phcal] namespace of the NVS. *)
Record Board : Type := {
  globals : Globals;
  nvs : gmap string (pref_value F)
}.

Definition loadCalibration (b : Board) : Board :=
  let g := globals b in
  let p := nvs b in
  let useTwoLines' := getBool p "two" false in
  let typicalDirection' := getBool p "typ" true in
  let v7_break' := getFloat p "v7" (v7_break g) in
  let mLow' := getFloat p "mL" (mLow g) in
  let bLow' := getFloat p "bL" (bLow g) in
  let mHigh' := getFloat p "mH" (mHigh g) in
  let bHigh' := getFloat p "bH" (bHigh g) in
  {| globals := {| useTwoLines := useTwoLines';
                   typicalDirection := typicalDirection';
                   v7_break := v7_break';
                   mLow := mLow'; bLow := bLow';
                   mHigh := mHigh'; bHigh := bHigh';
                   filtV_main := filtV_main g |};
     nvs := p |}.

Definition saveOneLine (bd : Board) (V4 V7 : F) : Board :=
  let m := (PH4 - PH7) / (V4 - V7) in
  let b := PH7 - m * V7 in
  let p := nvs bd in
  let p := putBool "two" false p in
  let p := putBool "typ" (V4 >? V7) p in
  let p := putFloat "v7" V7 p in
  let p := putFloat "mL" m p in
  let p := putFloat "bL" b p in
  let p := putFloat "mH" m p in
  let p := putFloat "bH" b p in
  {| globals := {| useTwoLines := false;
                   typicalDirection := (V4 >? V7);
                   v7_break := V7;
                   mLow := m; bLow := b;
                   mHigh := m; bHigh := b;
                   filtV_main := NAN |};
     nvs := p |}.

Definition saveTwoLines (bd : Board) (V4 V7 V9 : F) : Board :=
  let mL := (PH4 - PH7) / (V4 - V7) in
  let bL := PH7 - mL * V7 in
  let mH := (PH7 - PH9) / (V7 - V9) in
  let bH := PH7 - mH * V7 in
  let p := nvs bd in
  let p := putBool "two" true p in
  let p := putBool "typ" (V4 >? V7) p in
  let p := putFloat "v7" V7 p in
  let p := putFloat "mL" mL p in
  let p := putFloat "bL" bL p in
  let p := putFloat "mH" mH p in
  let p := putFloat "bH" bH p in
  {| globals := {| useTwoLines := true;
                   typicalDirection := (V4 >? V7);
                   v7_break := V7;
                   mLow := mL; bLow := bL;
                   mHigh := mH; bHigh := bH;
                   filtV_main := NAN |};
     nvs := p |}.

Definition calculatePH_piecewise (g : Globals) (v : F) : F :=
  if negb (useTwoLines g) then mLow g * v + bLow g
  else if typicalDirection g then
    if v >=? v7_break g then mLow g * v + bLow g
    else mHigh g * v + bHigh g
  else
    if v <=? v7_break g then mLow g * v + bLow g
    else mHigh g * v + bHigh g.

(** [USE_INA226 == 1]: twenty bus-voltage readings. *)
Definition readVoltageRawTrimmed (src : nat -> F) : F := trimmed_mean 20 src.

(** The [#else] branch ([USE_INA226 == 0]): twenty-five [analogRead]
    counts, [uint16_t a, mn, mx] and [uint32_t sum] with their wrap-around;
    [src i] is the [i]-th value returned by [analogRead(PH_ADC_PIN)]. *)
Definition ADC_VREF : F := flit 330 100.
Definition ADC_MAX : F := flit 4095 1.

Definition adc_step (src : nat -> Z) (acc : Z * Z * Z) (i : nat) : Z * Z * Z :=
  let '(sum, mn, mx) := acc in
  let a := (src i mod 2 ^ 16)%Z in
  let sum := ((sum + a) mod 2 ^ 32)%Z in
  let mn := if (a <? mn)%Z then a else mn in
  let mx := if (a >? mx)%Z then a else mx in
  (sum, mn, mx).

Definition adc_loop (N : nat) (src : nat -> Z) : Z * Z * Z :=
  fold_left (adc_step src) (seq 0 N) (0, 4095, 0)%Z.

Definition readVoltageRawTrimmed_adc (src : nat -> Z) : F :=
  let N := 25%nat in
  let '(sum, mn, mx) := adc_loop N src in
  let sum := ((sum - mn) mod 2 ^ 32)%Z in
  let sum := ((sum - mx) mod 2 ^ 32)%Z in
  let avgCounts := flit sum 1 / flit (Z.of_nat N - 2) 1 in
  (avgCounts / ADC_MAX) * ADC_VREF.

(** [MAIN_PAGE_SMOOTHING == 1]; only [filtV_main] changes. *)
Definition readVoltageMainSmoothed (g : Globals) (src : nat -> F) : Globals * F :=
  let v := readVoltageRawTrimmed src in
  let '(filt, out) := iir_update MAIN_ALPHA (filtV_main g) v in
  ({| useTwoLines := useTwoLines g;
      typicalDirection := typicalDirection g;
      v7_break := v7_break g;
      mLow := mLow g; bLow := bLow g;
      mHigh := mHigh g; bHigh := bHigh g;
      filtV_main := filt |}, out).

(** The request: [args !! k] is [server.arg(k).toFloat()] when
    [server.hasArg(k)]; parsing the text is the request layer's. *)
Definition hasArg (args : gmap string F) (k : string) : bool :=
  match args !! k with Some _ => true | None => false end.

Definition arg (args : gmap string F) (k : string) : F :=
  match args !! k with Some x => x | None => flit 0 1 end.

Definition handleSetCal2 (bd : Board) (args : gmap string F) : Board * response :=
  if negb (hasArg args "v4") || negb (hasArg args "v7") then
    (bd, Send 400 "text/plain" "Missing v4 or v7")
  else
    let V4 := arg args "v4" in
    let V7 := arg args "v7" in
    if (V4 <=? flit 0 1) || (V7 <=? flit 0 1) then
      (bd, Send 400 "text/plain" "Voltages must be > 0")
    else if fabs (V4 - V7) <? flit 1 100 then
      (bd, Send 400 "text/plain" "v4 and v7 too close (bad calibration)")
    else
      (saveOneLine bd V4 V7,
       Send 200 "text/plain" "Saved ONE line using pH 4.01 & 7.00").

Definition handleSetCal3 (bd : Board) (args : gmap string F) : Board * response :=
  if negb (hasArg args "v4") || negb (hasArg args "v7") || negb (hasArg args "v9") then
    (bd, Send 400 "text/plain" "Missing v4 or v7 or v9")
  else
    let V4 := arg args "v4" in
    let V7 := arg args "v7" in
    let V9 := arg args "v9" in
    if (V4 <=? flit 0 1) || (V7 <=? flit 0 1) || (V9 <=? flit 0 1) then
      (bd, Send 400 "text/plain" "Voltages must be > 0")
    else if (fabs (V4 - V7) <? flit 1 100) || (fabs (V9 - V7) <? flit 1 100)
            || (fabs (V9 - V4) <? flit 1 100) then
      (bd, Send 400 "text/plain" "Two voltages are too close (bad 3-point)")
    else
      (saveTwoLines bd V4 V7 V9,
       Send 200 "text/plain" "Saved TWO lines (4->7) and (7->9.18)").

(** [setup()]: the globals start from their initialisers and
    [loadCalibration] runs on whatever the NVS holds. *)
Definition setup (stored : gmap string (pref_value F)) : Board :=
  loadCalibration {| globals := boot_globals; nvs := stored |}.
End Firmware.
End TwoPage.


(** ** The 2-point line / 3-point quadratic sketch *)

Module Quadratic.
Section Firmware.
Context {F : Type} {O : FloatOps F}.
(** Arduino's [String(float, decimalPlaces)] constructor, used only to
    build the text of a success response. *)
Variable String_of_float : F -> nat -> string.
Local Open Scope fl_scope.

Definition IIR_ALPHA : F := flit 15 100.
Definition VOLTAGE_SCALE : F := flit 1 1.
Definition PH7 : F := flit 700 100.
Definition PH4 : F := flit 401 100.
Definition PH9 : F := flit 918 100.

Record Globals : Type := {
  useQuadratic : bool;
  linM : F;
  linB : F;
  qa : F;
  qb : F;
  qc : F;
  filtV : F
}.

Definition boot_globals : Globals := {|
  useQuadratic := false;
  linM := - flit 249 100;
  linB := flit 104725 10000;
  qa := flit 0 1;
  qb := - flit 249 100;
  qc := flit 104725 10000;
  filtV := NAN
|}.

Record Board : Type := {
  globals : Globals;
  nvs : gmap string (pref_value F)
}.

(** The function returns [false] before it writes [a], [b], [c]: [None];
    otherwise [Some (a, b, c)]. *)
Definition solveQuadraticFrom3Points (x1 y1 x2 y2 x3 y3 : F) : option (F * F * F) :=
  let d1 := (x1 - x2) * (x1 - x3) in
  let d2 := (x2 - x1) * (x2 - x3) in
  let d3 := (x3 - x1) * (x3 - x2) in
  if (fabs d1 <? flit 1 1000000000) || (fabs d2 <? flit 1 1000000000)
     || (fabs d3 <? flit 1 1000000000) then None
  else
    let A1 := y1 / d1 in
    let A2 := y2 / d2 in
    let A3 := y3 / d3 in
    let a := A1 + A2 + A3 in
    let b := - (A1 * (x2 + x3) + A2 * (x1 + x3) + A3 * (x1 + x2)) in
    let c := A1 * (x2 * x3) + A2 * (x1 * x3) + A3 * (x1 * x2) in
    Some (a, b, c).

Definition calculatePH (g : Globals) (v_sensor : F) : F :=
  if useQuadratic g then qa g * v_sensor * v_sensor + qb g * v_sensor + qc g
  else linM g * v_sensor + linB g.

Definition loadCalibration (b : Board) : Board :=
  let g := globals b in
  let p := nvs b in
  let useQuadratic' := getBool p "quad" false in
  let linM' := getFloat p "m" (linM g) in
  let linB' := getFloat p "b" (linB g) in
  let qa' := getFloat p "qa" (qa g) in
  let qb' := getFloat p "qb" (qb g) in
  let qc' := getFloat p "qc" (qc g) in
  {| globals := {| useQuadratic := useQuadratic';
                   linM := linM'; linB := linB';
                   qa := qa'; qb := qb'; qc := qc';
                   filtV := filtV g |};
     nvs := p |}.

Definition saveLinear (bd : Board) (m b : F) : Board :=
  let g := globals bd in
  let p := nvs bd in
  let p := putBool "quad" false p in
  let p := putFloat "m" m p in
  let p := putFloat "b" b p in
  {| globals := {| useQuadratic := false;
                   linM := m; linB := b;
                   qa := qa g; qb := qb g; qc := qc g;
                   filtV := NAN |};
     nvs := p |}.

Definition saveQuadratic (bd : Board) (a b c : F) : Board :=
  let g := globals bd in
  let p := nvs bd in
  let p := putBool "quad" true p in
  let p := putFloat "qa" a p in
  let p := putFloat "qb" b p in
  let p := putFloat "qc" c p in
  {| globals := {| useQuadratic := true;
                   linM := linM g; linB := linB g;
                   qa := a; qb := b; qc := c;
                   filtV := NAN |};
     nvs := p |}.

(** [USE_INA226 == 1], [ENABLE_IIR_SMOOTHING == 1]. *)
Definition readPHVoltage (g : Globals) (src : nat -> F) : Globals * F :=
  let v := trimmed_mean 20 src in
  let v_sensor := v * VOLTAGE_SCALE in
  let '(filt, out) := iir_update IIR_ALPHA (filtV g) v_sensor in
  ({| useQuadratic := useQuadratic g;
      linM := linM g; linB := linB g;
      qa := qa g; qb := qb g; qc := qc g;
      filtV := filt |}, out).

Definition hasArg (args : gmap string F) (k : string) : bool :=
  match args !! k with Some _ => true | None => false end.

Definition arg (args : gmap string F) (k : string) : F :=
  match args !! k with Some x => x | None => flit 0 1 end.

Definition handleSetCal2 (bd : Board) (args : gmap string F) : Board * response :=
  if negb (hasArg args "v7") || negb (hasArg args "v4") then
    (bd, Send 400 "text/plain" "Missing v7 or v4")
  else
    let v7 := arg args "v7" in
    let v4 := arg args "v4" in
    if (v7 <=? flit 0 1) || (v4 <=? flit 0 1) then
      (bd, Send 400 "text/plain" "Voltages must be > 0")
    else if fabs (v4 - v7) <? flit 1 100 then
      (bd, Send 400 "text/plain" "v4 and v7 too close (bad calibration)")
    else
      let m := (PH4 - PH7) / (v4 - v7) in
      let b := PH7 - m * v7 in
      (saveLinear bd m b,
       Send 200 "text/plain"
         (String.append "Saved 2-point: pH = "
            (String.append (String_of_float m 8)
               (String.append "*V + " (String_of_float b 8))))).

Definition handleSetCal3 (bd : Board) (args : gmap string F) : Board * response :=
  if negb (hasArg args "v7") || negb (hasArg args "v4") || negb (hasArg args "v9") then
    (bd, Send 400 "text/plain" "Missing v7 or v4 or v9")
  else
    let v7 := arg args "v7" in
    let v4 := arg args "v4" in
    let v9 := arg args "v9" in
    if (v7 <=? flit 0 1) || (v4 <=? flit 0 1) || (v9 <=? flit 0 1) then
      (bd, Send 400 "text/plain" "Voltages must be > 0")
    else if (fabs (v4 - v7) <? flit 1 100) || (fabs (v9 - v7) <? flit 1 100)
            || (fabs (v9 - v4) <? flit 1 100) then
      (bd, Send 400 "text/plain" "Two voltages are too close (bad 3-point)")
    else
      match solveQuadraticFrom3Points v4 PH4 v7 PH7 v9 PH9 with
      | None =>
          (bd, Send 400 "text/plain" "Could not solve quadratic (check voltages)")
      | Some (a, b, c) =>
          (saveQuadratic bd a b c,
           Send 200 "text/plain"
             (String.append "Saved 3-point: pH = "
                (String.append (String_of_float a 10)
                   (String.append "*V^2 + "
                      (String.append (String_of_float b 8)
                         (String.append "*V + " (String_of_float c 8)))))))
      end.

Definition setup (stored : gmap string (pref_value F)) : Board :=
  loadCalibration {| globals := boot_globals; nvs := stored |}.
End Firmware.
End Quadratic.

(** ** The earlier piecewise sketch: segment selection *)

Module Part000.
Section Firmware.
Context {F : Type} {O : FloatOps F}.
Local Open Scope fl_scope.

Record Globals : Type := {
  useTwoLines : bool;
  v7_break : F;
  mLow : F;
  bLow : F;
  mHigh : F;
  bHigh : F;
  typicalDirection : bool;
  filtV : F
}.

Definition calculatePH_piecewise (g : Globals) (v_sensor : F) : F :=
  if negb (useTwoLines g) then mLow g * v_sensor + bLow g
  else if typicalDirection g then
    if v_sensor >=? v7_break g then mLow g * v_sensor + bLow g
    else mHigh g * v_sensor + bHigh g
  else
    if v_sensor <=? v7_break g then mLow g * v_sensor + bLow g
    else mHigh g * v_sensor + bHigh g.
End Firmware.
End Part000.


(** ** Vocabulary for the statements *)

Section Vocabulary.
Context {F : Type} {O : FloatOps F}.
Local Open Scope fl_scope.

(** The [N] readings of one sampling pass, in the order they are drawn. *)
Definition readings (N : nat) (src : nat -> F) : list F := map src (seq 0 N).

(** The three accumulators of the loop, each on its own. *)
Definition running_sum (l : list F) (init : F) : F :=
  fold_left (fun sum a => sum + a) l init.

Definition running_min (l : list F) (init : F) : F :=
  fold_left (fun mn a => if a <? mn then a else mn) l init.

Definition running_max (l : list F) (init : F) : F :=
  fold_left (fun mx a => if a >? mx then a else mx) l init.

(** One straight line [pH = m*V + b]. *)
Definition line (m b v : F) : F := m * v + b.
End Vocabulary.

(** Inputs on which seeding the filter is exact: finite floats and [+0.0]. *)
Definition seedable (x : spec_float) : bool :=
  match x with
  | S754_finite _ _ _ => true
  | S754_zero false => true
  | _ => false
  end.


(** Sum of a list of integers. *)
Definition Zsum (l : list Z) : Z := fold_right Z.add 0 l.

(** Sum of a list of rationals. *)
Definition Qsum (l : list Q) : Q := fold_right Qplus 0%Q l.

(** A request carrying the given arguments. *)
Definition request2 {F : Type} (v4 v7 : F) : gmap string F :=
  <["v4" := v4]> (<["v7" := v7]> ∅).

Definition request3 {F : Type} (v4 v7 v9 : F) : gmap string F :=
  <["v4" := v4]> (<["v7" := v7]> (<["v9" := v9]> ∅)).


(** The tolerance of the testable properties. *)
Definition tol : Q := 1 # 10000.

(** A value of the exact reading that is a number (not NaN). *)
Definition is_number (x : option Q) : Prop := x <> None.

(** The model fitted from the reference voltages 2.600, 2.100, 1.800. *)
Definition reference_twolines : TwoPage.Globals :=
  TwoPage.globals (TwoPage.saveTwoLines (TwoPage.setup ∅)
                     (b32_lit 2600 1000) (b32_lit 2100 1000) (b32_lit 1800 1000)).

(** The same model with its direction flag inverted. *)
Definition reference_inverted : TwoPage.Globals :=
  {| TwoPage.useTwoLines := true;
     TwoPage.typicalDirection := false;
     TwoPage.v7_break := TwoPage.v7_break reference_twolines;
     TwoPage.mLow := TwoPage.mLow reference_twolines;
     TwoPage.bLow := TwoPage.bLow reference_twolines;
     TwoPage.mHigh := TwoPage.mHigh reference_twolines;
     TwoPage.bHigh := TwoPage.bHigh reference_twolines;
     TwoPage.filtV_main := NAN |}.

(** A pass of twenty readings of the largest finite float: the running sum
    overflows and the trimmed mean is [+inf]. *)
Definition overflowing_source : nat -> spec_float :=
  fun _ => S754_finite false 16777215 104.

(** A formatter standing for [String(float, n)] in closed examples. *)
Definition no_digits {F : Type} (x : F) (n : nat) : string := "".


(** ** The remaining handlers and the request loop *)

(** The double-quote character of the JSON texts. *)
Definition dq : string := String (Ascii.ascii_of_nat 34) EmptyString.

(** [dq key dq ":"], the way every field of [handleCalJson] starts. *)
Definition json_key (k : string) : string := String.concat "" [dq; k; dq; ":"].

(** [String(flag ? "true" : "false")]. *)
Definition json_bool (b : bool) : string := if b then "true" else "false".

(** [server.on(uri, HTTP_GET, handler)] registers a route and
    [server.handleClient()] runs the first registered handler whose uri and
    method match the request; when none does, the library answers by
    itself ([not_found]) and no handler runs. *)
Section Router.
Context {B : Type}.
Variable not_found : string -> response.

Fixpoint first_route (routes : list (string * (B -> B * response))) (uri : string)
  : option (B -> B * response) :=
  match routes with
  | [] => None
  | (u, h) :: rest => if String.eqb u uri then Some h else first_route rest uri
  end.

Definition handleClient (routes : list (string * (B -> B * response)))
    (is_get : bool) (uri : string) (bd : B) : B * response :=
  if is_get then
    match first_route routes uri with
    | Some h => h bd
    | None => (bd, not_found uri)
    end
  else (bd, not_found uri).
End Router.

Module TwoPageServer.
Section Firmware.
Context {F : Type} {O : FloatOps F}.
(** Arduino's [String(float, decimalPlaces)]. *)
Variable String_of_float : F -> nat -> string.
(** The texts of the two pages, constants of the sketch. *)
Variables root_html calibrate_html : string.
Variable not_found : string -> response.
Local Open Scope fl_scope.

Definition handlePH (bd : (@TwoPage.Board F)) (src : nat -> F) : (@TwoPage.Board F) * response :=
  let '(g, v) := TwoPage.readVoltageMainSmoothed (TwoPage.globals bd) src in
  let p := TwoPage.calculatePH_piecewise g v in
  ({| TwoPage.globals := g; TwoPage.nvs := TwoPage.nvs bd |},
   Send 200 "text/plain" (String_of_float p 2)).

Definition handlePHV (bd : (@TwoPage.Board F)) (src : nat -> F) : (@TwoPage.Board F) * response :=
  let v := TwoPage.readVoltageRawTrimmed src in
  (bd, Send 200 "text/plain" (String_of_float v 4)).

Definition handleCalJson (bd : (@TwoPage.Board F)) : (@TwoPage.Board F) * response :=
  let g := TwoPage.globals bd in
  let json := "{"%string in
  let json := String.concat ""
    [json; json_key "two"; json_bool (TwoPage.useTwoLines g); ","] in
  let json := String.concat ""
    [json; json_key "v7"; String_of_float (TwoPage.v7_break g) 4; ","] in
  let json := String.concat ""
    [json; json_key "mL"; String_of_float (TwoPage.mLow g) 8; ","] in
  let json := String.concat ""
    [json; json_key "bL"; String_of_float (TwoPage.bLow g) 8; ","] in
  let json := String.concat ""
    [json; json_key "mH"; String_of_float (TwoPage.mHigh g) 8; ","] in
  let json := String.concat ""
    [json; json_key "bH"; String_of_float (TwoPage.bHigh g) 8] in
  let json := String.concat "" [json; "}"] in
  (bd, Send 200 "application/json" json).

Definition handleRoot (bd : (@TwoPage.Board F)) : (@TwoPage.Board F) * response :=
  (bd, Send 200 "text/html" root_html).

Definition handleCalibrate (bd : (@TwoPage.Board F)) : (@TwoPage.Board F) * response :=
  (bd, Send 200 "text/html" calibrate_html).

(** The routes of [setup()], in the order they are registered; [args] are
    the arguments of the request being served and [src] the readings a
    sampling pass would draw while serving it. *)
Definition routes (args : gmap string F) (src : nat -> F)
  : list (string * ((@TwoPage.Board F) -> (@TwoPage.Board F) * response)) :=
  [ ("/", handleRoot);
    ("/calibrate", handleCalibrate);
    ("/ph", fun bd => handlePH bd src);
    ("/phv", fun bd => handlePHV bd src);
    ("/cal", handleCalJson);
    ("/setcal2", fun bd => TwoPage.handleSetCal2 bd args);
    ("/setcal3", fun bd => TwoPage.handleSetCal3 bd args) ].

(** One turn of [loop()] with a request waiting. *)
Definition loop (is_get : bool) (uri : string) (args : gmap string F) (src : nat -> F)
    (bd : (@TwoPage.Board F)) : (@TwoPage.Board F) * response :=
  handleClient not_found (routes args src) is_get uri bd.
End Firmware.
End TwoPageServer.

Module QuadraticServer.
Section Firmware.
Context {F : Type} {O : FloatOps F}.
Variable String_of_float : F -> nat -> string.
Variables root_html calibrate_html : string.
Variable not_found : string -> response.
Local Open Scope fl_scope.

Definition handlePH (bd : (@Quadratic.Board F)) (src : nat -> F) : (@Quadratic.Board F) * response :=
  let '(g, v) := Quadratic.readPHVoltage (Quadratic.globals bd) src in
  let p := Quadratic.calculatePH g v in
  ({| Quadratic.globals := g; Quadratic.nvs := Quadratic.nvs bd |},
   Send 200 "text/plain" (String_of_float p 2)).

Definition handlePHV (bd : (@Quadratic.Board F)) (src : nat -> F) : (@Quadratic.Board F) * response :=
  let '(g, v) := Quadratic.readPHVoltage (Quadratic.globals bd) src in
  ({| Quadratic.globals := g; Quadratic.nvs := Quadratic.nvs bd |},
   Send 200 "text/plain" (String_of_float v 4)).

Definition handleCalJson (bd : (@Quadratic.Board F)) : (@Quadratic.Board F) * response :=
  let g := Quadratic.globals bd in
  let json := "{"%string in
  let json := String.concat ""
    [json; json_key "quad"; json_bool (Quadratic.useQuadratic g); ","] in
  let json := String.concat ""
    [json; json_key "m"; String_of_float (Quadratic.linM g) 8; ","] in
  let json := String.concat ""
    [json; json_key "b"; String_of_float (Quadratic.linB g) 8; ","] in
  let json := String.concat ""
    [json; json_key "qa"; String_of_float (Quadratic.qa g) 10; ","] in
  let json := String.concat ""
    [json; json_key "qb"; String_of_float (Quadratic.qb g) 8; ","] in
  let json := String.concat ""
    [json; json_key "qc"; String_of_float (Quadratic.qc g) 8] in
  let json := String.concat "" [json; "}"] in
  (bd, Send 200 "application/json" json).

Definition handleRoot (bd : (@Quadratic.Board F)) : (@Quadratic.Board F) * response :=
  (bd, Send 200 "text/html" root_html).

Definition handleCalibrate (bd : (@Quadratic.Board F)) : (@Quadratic.Board F) * response :=
  (bd, Send 200 "text/html" calibrate_html).

Definition routes (args : gmap string F) (src : nat -> F)
  : list (string * ((@Quadratic.Board F) -> (@Quadratic.Board F) * response)) :=
  [ ("/", handleRoot);
    ("/calibrate", handleCalibrate);
    ("/ph", fun bd => handlePH bd src);
    ("/phv", fun bd => handlePHV bd src);
    ("/cal", handleCalJson);
    ("/setcal2", fun bd => Quadratic.handleSetCal2 String_of_float bd args);
    ("/setcal3", fun bd => Quadratic.handleSetCal3 String_of_float bd args) ].

Definition loop (is_get : bool) (uri : string) (args : gmap string F) (src : nat -> F)
    (bd : (@Quadratic.Board F)) : (@Quadratic.Board F) * response :=
  handleClient not_found (routes args src) is_get uri bd.
End Firmware.
End QuadraticServer.

(** ** The earlier piecewise sketch, whole *)

Module Part000Sketch.
Section Firmware.
Context {F : Type} {O : FloatOps F}.
Variable String_of_float : F -> nat -> string.
Local Open Scope fl_scope.

Definition IIR_ALPHA : F := flit 15 100.
Definition VOLTAGE_SCALE : F := flit 1 1.
Definition PH7 : F := flit 700 100.
Definition PH4 : F := flit 401 100.
Definition PH9 : F := flit 918 100.

Definition boot_globals : (@Part000.Globals F) := {|
  Part000.useTwoLines := false;
  Part000.v7_break := flit 2100 1000;
  Part000.mLow := - flit 249 100;
  Part000.bLow := flit 104725 10000;
  Part000.mHigh := - flit 249 100;
  Part000.bHigh := flit 104725 10000;
  Part000.typicalDirection := true;
  Part000.filtV := NAN
|}.

Record Board : Type := {
  globals : (@Part000.Globals F);
  nvs : gmap string (pref_value F)
}.

Definition voltagesIncreaseAsPhDrops (V4 V7 : F) : bool := V4 >? V7.

(** The placeholder the sketch still defines; [handlePH] does not call it. *)
Definition calculatePH (g : (@Part000.Globals F)) (v_sensor : F) : F :=
  if negb (Part000.useTwoLines g) then Part000.mLow g * v_sensor + Part000.bLow g
  else
    let typical :=
      voltagesIncreaseAsPhDrops (Part000.v7_break g + flit 5 10) (Part000.v7_break g) in
    flit 0 1.

Definition loadCalibration (b : Board) : Board :=
  let g := globals b in
  let p := nvs b in
  let useTwoLines' := getBool p "two" false in
  let typicalDirection' := getBool p "typ" true in
  let v7_break' := getFloat p "v7" (Part000.v7_break g) in
  let mLow' := getFloat p "mL" (Part000.mLow g) in
  let bLow' := getFloat p "bL" (Part000.bLow g) in
  let mHigh' := getFloat p "mH" (Part000.mHigh g) in
  let bHigh' := getFloat p "bH" (Part000.bHigh g) in
  {| globals := {| Part000.useTwoLines := useTwoLines';
                   Part000.v7_break := v7_break';
                   Part000.mLow := mLow'; Part000.bLow := bLow';
                   Part000.mHigh := mHigh'; Part000.bHigh := bHigh';
                   Part000.typicalDirection := typicalDirection';
                   Part000.filtV := Part000.filtV g |};
     nvs := p |}.

Definition saveOneLine (bd : Board) (V4 V7 : F) : Board :=
  let m := (PH4 - PH7) / (V4 - V7) in
  let b := PH7 - m * V7 in
  let p := nvs bd in
  let p := putBool "two" false p in
  let p := putBool "typ" (V4 >? V7) p in
  let p := putFloat "v7" V7 p in
  let p := putFloat "mL" m p in
  let p := putFloat "bL" b p in
  let p := putFloat "mH" m p in
  let p := putFloat "bH" b p in
  {| globals := {| Part000.useTwoLines := false;
                   Part000.v7_break := V7;
                   Part000.mLow := m; Part000.bLow := b;
                   Part000.mHigh := m; Part000.bHigh := b;
                   Part000.typicalDirection := (V4 >? V7);
                   Part000.filtV := NAN |};
     nvs := p |}.

Definition saveTwoLines (bd : Board) (V4 V7 V9 : F) : Board :=
  let mL := (PH4 - PH7) / (V4 - V7) in
  let bL := PH7 - mL * V7 in
  let mH := (PH7 - PH9) / (V7 - V9) in
  let bH := PH7 - mH * V7 in
  let p := nvs bd in
  let p := putBool "two" true p in
  let p := putBool "typ" (V4 >? V7) p in
  let p := putFloat "v7" V7 p in
  let p := putFloat "mL" mL p in
  let p := putFloat "bL" bL p in
  let p := putFloat "mH" mH p in
  let p := putFloat "bH" bH p in
  {| globals := {| Part000.useTwoLines := true;
                   Part000.v7_break := V7;
                   Part000.mLow := mL; Part000.bLow := bL;
                   Part000.mHigh := mH; Part000.bHigh := bH;
                   Part000.typicalDirection := (V4 >? V7);
                   Part000.filtV := NAN |};
     nvs := p |}.

(** [USE_INA226 == 1], [ENABLE_IIR_SMOOTHING == 1]. *)
Definition readPHVoltage (g : (@Part000.Globals F)) (src : nat -> F) : (@Part000.Globals F) * F :=
  let v := trimmed_mean 20 src in
  let v_sensor := v * VOLTAGE_SCALE in
  let '(filt, out) := iir_update IIR_ALPHA (Part000.filtV g) v_sensor in
  ({| Part000.useTwoLines := Part000.useTwoLines g;
      Part000.v7_break := Part000.v7_break g;
      Part000.mLow := Part000.mLow g; Part000.bLow := Part000.bLow g;
      Part000.mHigh := Part000.mHigh g; Part000.bHigh := Part000.bHigh g;
      Part000.typicalDirection := Part000.typicalDirection g;
      Part000.filtV := filt |}, out).

Definition handlePH (bd : Board) (src : nat -> F) : Board * response :=
  let '(g, v) := readPHVoltage (globals bd) src in
  let p := Part000.calculatePH_piecewise g v in
  ({| globals := g; nvs := nvs bd |}, Send 200 "text/plain" (String_of_float p 2)).

Definition handlePHV (bd : Board) (src : nat -> F) : Board * response :=
  let '(g, v) := readPHVoltage (globals bd) src in
  ({| globals := g; nvs := nvs bd |}, Send 200 "text/plain" (String_of_float v 4)).

Definition hasArg (args : gmap string F) (k : string) : bool :=
  match args !! k with Some _ => true | None => false end.

Definition arg (args : gmap string F) (k : string) : F :=
  match args !! k with Some x => x | None => flit 0 1 end.

Definition handleSetCal2 (bd : Board) (args : gmap string F) : Board * response :=
  if negb (hasArg args "v7") || negb (hasArg args "v4") then
    (bd, Send 400 "text/plain" "Missing v7 or v4")
  else
    let V7 := arg args "v7" in
    let V4 := arg args "v4" in
    if (V7 <=? flit 0 1) || (V4 <=? flit 0 1) then
      (bd, Send 400 "text/plain" "Voltages must be > 0")
    else if fabs (V4 - V7) <? flit 1 100 then
      (bd, Send 400 "text/plain" "v4 and v7 too close (bad calibration)")
    else
      (saveOneLine bd V4 V7,
       Send 200 "text/plain" "Saved ONE line using pH 4.01 & 7.00").

Definition handleSetCal3 (bd : Board) (args : gmap string F) : Board * response :=
  if negb (hasArg args "v7") || negb (hasArg args "v4") || negb (hasArg args "v9") then
    (bd, Send 400 "text/plain" "Missing v7 or v4 or v9")
  else
    let V7 := arg args "v7" in
    let V4 := arg args "v4" in
    let V9 := arg args "v9" in
    if (V7 <=? flit 0 1) || (V4 <=? flit 0 1) || (V9 <=? flit 0 1) then
      (bd, Send 400 "text/plain" "Voltages must be > 0")
    else if (fabs (V4 - V7) <? flit 1 100) || (fabs (V9 - V7) <? flit 1 100)
            || (fabs (V9 - V4) <? flit 1 100) then
      (bd, Send 400 "text/plain" "Two voltages are too close (bad 3-point)")
    else
      (saveTwoLines bd V4 V7 V9,
       Send 200 "text/plain" "Saved TWO lines (4->7) and (7->9.18)").

Definition handleCalJson (bd : Board) : Board * response :=
  let g := globals bd in
  let json := "{"%string in
  let json := String.concat ""
    [json; json_key "two"; json_bool (Part000.useTwoLines g); ","] in
  let json := String.concat ""
    [json; json_key "typ"; json_bool (Part000.typicalDirection g); ","] in
  let json := String.concat ""
    [json; json_key "v7"; String_of_float (Part000.v7_break g) 4; ","] in
  let json := String.concat ""
    [json; json_key "mL"; String_of_float (Part000.mLow g) 8; ","] in
  let json := String.concat ""
    [json; json_key "bL"; String_of_float (Part000.bLow g) 8; ","] in
  let json := String.concat ""
    [json; json_key "mH"; String_of_float (Part000.mHigh g) 8; ","] in
  let json := String.concat ""
    [json; json_key "bH"; String_of_float (Part000.bHigh g) 8] in
  let json := String.concat "" [json; "}"] in
  (bd, Send 200 "application/json" json).

Variables root_html calibrate_html : string.
Variable not_found : string -> response.

Definition handleRoot (bd : Board) : Board * response :=
  (bd, Send 200 "text/html" root_html).

Definition handleCalibrate (bd : Board) : Board * response :=
  (bd, Send 200 "text/html" calibrate_html).

Definition routes (args : gmap string F) (src : nat -> F)
  : list (string * (Board -> Board * response)) :=
  [ ("/", handleRoot);
    ("/calibrate", handleCalibrate);
    ("/ph", fun bd => handlePH bd src);
    ("/phv", fun bd => handlePHV bd src);
    ("/cal", handleCalJson);
    ("/setcal2", fun bd => handleSetCal2 bd args);
    ("/setcal3", fun bd => handleSetCal3 bd args) ].

Definition loop (is_get : bool) (uri : string) (args : gmap string F) (src : nat -> F)
    (bd : Board) : Board * response :=
  handleClient not_found (routes args src) is_get uri bd.

Definition setup (stored : gmap string (pref_value F)) : Board :=
  loadCalibration {| globals := boot_globals; nvs := stored |}.
End Firmware.
End Part000Sketch.

(** ** More vocabulary *)

(** The filter state after a run of updates, one per raw value. *)
Definition iir_run {F : Type} {O : FloatOps F} (alpha filt : F) (vs : list F) : F :=
  fold_left (fun f v => fst (iir_update alpha f v)) vs filt.

(** The same calibration, seen as a board of the two-page sketch. *)
Definition as_twopage {F : Type} (bd : @Part000Sketch.Board F) : @TwoPage.Board F :=
  let g := Part000Sketch.globals bd in
  {| TwoPage.globals :=
       {| TwoPage.useTwoLines := Part000.useTwoLines g;
          TwoPage.typicalDirection := Part000.typicalDirection g;
          TwoPage.v7_break := Part000.v7_break g;
          TwoPage.mLow := Part000.mLow g; TwoPage.bLow := Part000.bLow g;
          TwoPage.mHigh := Part000.mHigh g; TwoPage.bHigh := Part000.bHigh g;
          TwoPage.filtV_main := Part000.filtV g |};
     TwoPage.nvs := Part000Sketch.nvs bd |}.

(** The calibration part of the globals of the two-page sketch. *)
Definition calibration_of {F : Type} (g : @TwoPage.Globals F)
  : bool * bool * F * F * F * F * F :=
  (TwoPage.useTwoLines g, TwoPage.typicalDirection g, TwoPage.v7_break g,
   TwoPage.mLow g, TwoPage.bLow g, TwoPage.mHigh g, TwoPage.bHigh g).

(** * Properties *)

(** ** Persistence and rejection (any arithmetic) *)


Ltac split_ifs :=
  repeat match goal with
  | |- context [if ?c then _ else _] => destruct c
  end.

Section AnyArithmetic.
Context {F : Type} {O : FloatOps F}.









(** A rejected request returns the board it was given. *)
Lemma twopage_setcal2_rejected (bd : TwoPage.Board) (args : gmap string F) :
  status (snd (TwoPage.handleSetCal2 bd args)) = 400 ->
  fst (TwoPage.handleSetCal2 bd args) = bd.
Proof.
  unfold TwoPage.handleSetCal2. split_ifs; cbn; intros H; try reflexivity; discriminate H.
Qed.

Lemma twopage_setcal3_rejected (bd : TwoPage.Board) (args : gmap string F) :
  status (snd (TwoPage.handleSetCal3 bd args)) = 400 ->
  fst (TwoPage.handleSetCal3 bd args) = bd.
Proof.
  unfold TwoPage.handleSetCal3. split_ifs; cbn; intros H; try reflexivity; discriminate H.
Qed.

Lemma quadratic_setcal2_rejected (fmt : F -> nat -> string)
    (bd : Quadratic.Board) (args : gmap string F) :
  status (snd (Quadratic.handleSetCal2 fmt bd args)) = 400 ->
  fst (Quadratic.handleSetCal2 fmt bd args) = bd.
Proof.
  unfold Quadratic.handleSetCal2. split_ifs; cbn; intros H; try reflexivity; discriminate H.
Qed.

Lemma quadratic_setcal3_rejected (fmt : F -> nat -> string)
    (bd : Quadratic.Board) (args : gmap string F) :
  status (snd (Quadratic.handleSetCal3 fmt bd args)) = 400 ->
  fst (Quadratic.handleSetCal3 fmt bd args) = bd.
Proof.
  unfold Quadratic.handleSetCal3. split_ifs; cbn; try (intros H; reflexivity).
  destruct (Quadratic.solveQuadraticFrom3Points _ _ _ _ _ _) as [[[a b] c]|]; cbn;
    intros H; try reflexivity; discriminate H.
Qed.

End AnyArithmetic.

(** ** Order and cancellation facts of binary32 *)

Lemma SFcompare_antisym (x y : spec_float) :
  SFcompare y x = option_map CompOpp (SFcompare x y).
Proof.
  destruct x as [sx|sx| |sx mx ex], y as [sy|sy| |sy my ey]; simpl;
    try destruct sx; try destruct sy; try reflexivity;
    rewrite (Z.compare_antisym ex ey); destruct (ex ?= ey); simpl; try reflexivity;
    rewrite (ZC4 my mx); destruct (Pos.compare_cont Eq mx my); reflexivity.
Qed.


Lemma SFltb_le (x y : spec_float) : SFltb x y = true -> SFleb x y = true.
Proof. unfold SFltb, SFleb. destruct (SFcompare x y) as [[]|]; congruence. Qed.

Lemma SFeqb_le (x y : spec_float) : SFeqb x y = true -> SFleb x y = true /\ SFleb y x = true.
Proof.
  unfold SFeqb, SFleb. rewrite (SFcompare_antisym x y).
  destruct (SFcompare x y) as [[]|]; simpl; intuition congruence.
Qed.

Lemma SFcompare_defined (x y : spec_float) :
  x <> S754_nan -> y <> S754_nan -> exists c, SFcompare x y = Some c.
Proof.
  intros Hx Hy. destruct x, y; try congruence; simpl; eauto.
Qed.

Lemma SFleb_total (x y : spec_float) :
  x <> S754_nan -> y <> S754_nan -> SFltb x y = false -> SFleb y x = true.
Proof.
  intros Hx Hy. unfold SFltb, SFleb. rewrite (SFcompare_antisym x y).
  destruct (SFcompare_defined x y Hx Hy) as [c ->]. destruct c; simpl; congruence.
Qed.

Lemma SFleb_refl (x : spec_float) : x <> S754_nan -> SFleb x x = true.
Proof.
  intros Hx. unfold SFleb. destruct x as [s|s| |s m e]; try congruence; simpl.
  - reflexivity.
  - destruct s; reflexivity.
  - rewrite Z.compare_refl. rewrite Pos.compare_cont_refl. destruct s; reflexivity.
Qed.

(** Transitivity, through the finite case analysis of [SFcompare]. *)
Ltac sf_order :=
  unfold SFltb, SFleb;
  intros x y z;
  destruct x as [sx|sx| |sx mx ex], y as [sy|sy| |sy my ey], z as [sz|sz| |sz mz ez];
  simpl; try congruence;
  try destruct sx; try destruct sy; try destruct sz; simpl; try congruence;
  rewrite ?Pos.compare_cont_spec; simpl;
  try (destruct (Z.compare_spec ex ey); simpl; try congruence);
  try (destruct (Z.compare_spec ey ez); simpl; try congruence);
  try (destruct (Z.compare_spec ex ez); simpl; try congruence; try lia);
  try (destruct (Pos.compare_spec mx my); simpl; try congruence);
  try (destruct (Pos.compare_spec my mz); simpl; try congruence);
  try (destruct (Pos.compare_spec mx mz); simpl; try congruence; try lia).

Lemma SFleb_trans : forall x y z : spec_float,
  SFleb x y = true -> SFleb y z = true -> SFleb x z = true.
Proof. sf_order. Qed.

Lemma shl_align_same (m : positive) (e : Z) : shl_align m e e = (m, e).
Proof. unfold shl_align. rewrite Z.sub_diag. reflexivity. Qed.

Lemma SFsub_diag_finite (s : bool) (m : positive) (e : Z) :
  SFsub prec emax (S754_finite s m e) (S754_finite s m e) = S754_zero false.
Proof.
  unfold SFsub. rewrite Z.min_id, shl_align_same. cbn [fst].
  rewrite Z.sub_diag. reflexivity.
Qed.

Lemma iir_seed_exact (x : spec_float) :
  seedable x = true ->
  iir_update (flit 15 100) NAN x = (x, x).
Proof.
  destruct x as [[]| | |s m e]; simpl; try discriminate; intros _.
  - reflexivity.
  - unfold iir_update. cbn [fisnan NAN binary32 b32_isnan fadd fmul fsub flit].
    rewrite SFsub_diag_finite. reflexivity.
Qed.

(** ** The sampling loop (any arithmetic) *)

Section LoopFusion.
Context {F : Type} {O : FloatOps F}.

Lemma trim_fold_split (src : nat -> F) (idx : list nat) (sum mn mx : F) :
  fold_left (trim_step src) idx (sum, mn, mx) =
  (running_sum (map src idx) sum, running_min (map src idx) mn,
   running_max (map src idx) mx).
Proof.
  revert sum mn mx. induction idx as [|i idx IH]; intros sum mn mx.
  - reflexivity.
  - cbn [fold_left map]. unfold trim_step at 2. rewrite IH. reflexivity.
Qed.

Lemma trim_loop_split (N : nat) (src : nat -> F) :
  trim_loop N src =
  (running_sum (readings N src) (flit 0 1),
   running_min (readings N src) (flit 1000000000 1),
   running_max (readings N src) (fneg (flit 1000000000 1))).
Proof. unfold trim_loop, readings. apply trim_fold_split. Qed.

Lemma trimmed_mean_formula (N : nat) (src : nat -> F) :
  trimmed_mean N src =
  fdiv (fsub (fsub (running_sum (readings N src) (flit 0 1))
                   (running_min (readings N src) (flit 1000000000 1)))
             (running_max (readings N src) (fneg (flit 1000000000 1))))
       (flit (Z.of_nat N - 2) 1).
Proof. unfold trimmed_mean. rewrite trim_loop_split. reflexivity. Qed.
End LoopFusion.

Section RunningExtremes.
Context {F : Type} {O : FloatOps F}.
Variable ok : F -> Prop.
Hypothesis le_refl : forall x, ok x -> fle x x = true.
Hypothesis le_trans : forall x y z, fle x y = true -> fle y z = true -> fle x z = true.
Hypothesis lt_le : forall x y, flt x y = true -> fle x y = true.
Hypothesis le_total : forall x y, ok x -> ok y -> flt x y = false -> fle y x = true.

Lemma running_min_spec (l : list F) (init : F) :
  Forall ok l -> ok init ->
  (running_min l init = init \/ In (running_min l init) l) /\
  fle (running_min l init) init = true /\
  Forall (fun x => fle (running_min l init) x = true) l.
Proof.
  revert init. induction l as [|a l IH]; intros init Hl Hi.
  - cbn. auto.
  - inversion_clear Hl as [|? ? Ha Hl']. cbn [running_min fold_left].
    fold (running_min l (if flt a init then a else init)).
    destruct (flt a init) eqn:E.
    + destruct (IH a Hl' Ha) as (Hin & Hle & Hall). repeat split.
      * right. destruct Hin as [->|Hin]; [now left | now right].
      * apply (le_trans _ a); auto.
      * constructor; auto.
    + destruct (IH init Hl' Hi) as (Hin & Hle & Hall). repeat split.
      * destruct Hin as [->|Hin]; [now left | right; now right].
      * exact Hle.
      * constructor; auto. apply (le_trans _ init); auto.
Qed.

Lemma running_max_spec (l : list F) (init : F) :
  Forall ok l -> ok init ->
  (running_max l init = init \/ In (running_max l init) l) /\
  fle init (running_max l init) = true /\
  Forall (fun x => fle x (running_max l init) = true) l.
Proof.
  revert init. induction l as [|a l IH]; intros init Hl Hi.
  - cbn. auto.
  - inversion_clear Hl as [|? ? Ha Hl']. cbn [running_max fold_left].
    fold (running_max l (if flt init a then a else init)).
    destruct (flt init a) eqn:E.
    + destruct (IH a Hl' Ha) as (Hin & Hle & Hall). repeat split.
      * right. destruct Hin as [->|Hin]; [now left | now right].
      * apply (le_trans _ a); auto.
      * constructor; auto.
    + destruct (IH init Hl' Hi) as (Hin & Hle & Hall). repeat split.
      * destruct Hin as [->|Hin]; [now left | right; now right].
      * exact Hle.
      * constructor; auto. apply (le_trans _ init); auto.
Qed.

(** When the first reading lies strictly between the two sentinels, both
    running extremes are readings. *)
Lemma running_extremes_in (a : F) (l : list F) (lo hi : F) :
  Forall ok (a :: l) ->
  flt a hi = true -> flt lo a = true ->
  In (running_min (a :: l) hi) (a :: l) /\
  In (running_max (a :: l) lo) (a :: l) /\
  Forall (fun x => fle (running_min (a :: l) hi) x = true
                   /\ fle x (running_max (a :: l) lo) = true) (a :: l).
Proof.
  intros Hok Hhi Hlo. inversion Hok as [|? ? Ha Hl]; subst.
  cbn [running_min running_max fold_left]. rewrite Hhi, Hlo.
  fold (running_min l a). fold (running_max l a).
  destruct (running_min_spec l a Hl Ha) as (Hmin & Hmle & Hmall).
  destruct (running_max_spec l a Hl Ha) as (Hmax & Hxle & Hxall).
  repeat split.
  - destruct Hmin as [->|Hin]; [now left | now right].
  - destruct Hmax as [->|Hin]; [now left | now right].
  - constructor; [ split; assumption |].
    rewrite List.Forall_forall in *. intros x Hx. split; auto.
Qed.
End RunningExtremes.

(** ** Exact rational arithmetic *)

Lemma Qle_bool_false (x y : Q) : (y < x)%Q -> Qle_bool x y = false.
Proof.
  intros H. destruct (Qle_bool x y) eqn:E; [|reflexivity].
  apply Qle_bool_iff in E. lra.
Qed.
Lemma Qle_bool_true (x y : Q) : (x <= y)%Q -> Qle_bool x y = true.
Proof. apply Qle_bool_iff. Qed.
Lemma Qeq_bool_false (x y : Q) : ~ (x == y)%Q -> Qeq_bool x y = false.
Proof.
  intros H. destruct (Qeq_bool x y) eqn:E; [|reflexivity].
  apply Qeq_bool_iff in E. contradiction.
Qed.
Ltac exact_simpl :=
  cbn [fadd fsub fmul fdiv fneg fabs flt fle fisnan flit NAN exactQ
       lift2 exact_div exact_lt exact_le option_map orb negb].

(** *** The order of the exact reading *)

Lemma exact_le_refl (x : option Q) : is_number x -> fle x x = true.
Proof. destruct x as [q|]; [intros _|congruence]. apply Qle_bool_true. lra. Qed.

Lemma exact_le_trans (x y z : option Q) :
  fle x y = true -> fle y z = true -> fle x z = true.
Proof.
  destruct x as [a|], y as [b|], z as [c|]; cbn; try congruence.
  rewrite !Qle_bool_iff. lra.
Qed.

Lemma exact_lt_le (x y : option Q) : flt x y = true -> fle x y = true.
Proof.
  destruct x as [a|], y as [b|]; cbn; try congruence.
  destruct (Qle_bool b a) eqn:E; cbn; [congruence|]. intros _.
  apply Qle_bool_true. destruct (Qlt_le_dec a b) as [H|H]; [lra|].
  apply Qle_bool_iff in H. congruence.
Qed.

Lemma exact_le_total (x y : option Q) :
  is_number x -> is_number y -> flt x y = false -> fle y x = true.
Proof.
  destruct x as [a|], y as [b|]; unfold is_number; cbn; try congruence.
  intros _ _. destruct (Qle_bool b a); cbn; congruence.
Qed.

Lemma Qsum_fold_left (l : list Q) (a : Q) : (fold_left Qplus l a == a + Qsum l)%Q.
Proof.
  revert a. induction l as [|x l IH]; intros a; cbn [fold_left Qsum fold_right].
  - ring.
  - rewrite IH. fold (Qsum l). ring.
Qed.

Lemma Qsum_permutation (l l' : list Q) : Permutation l l' -> (Qsum l == Qsum l')%Q.
Proof.
  induction 1 as [|x l l' _ IH|x y l|l l' l'' _ IH1 _ IH2].
  - reflexivity.
  - cbn [Qsum fold_right]. fold (Qsum l) (Qsum l'). rewrite IH. reflexivity.
  - cbn [Qsum fold_right]. fold (Qsum l). ring.
  - now rewrite IH1.
Qed.

Lemma exact_running_sum (qs : list Q) (a : Q) :
  running_sum (map Some qs) (Some a) = Some (fold_left Qplus qs a).
Proof.
  revert a. induction qs as [|q qs IH]; intros a; [reflexivity|].
  cbn [map running_sum fold_left]. exact_simpl. apply IH.
Qed.

(** Two entries of a list, one of least and one of greatest value, at
    different positions. *)
Lemma pick_extremes (l : list Q) (mn mx : Q) :
  In mn l -> In mx l -> (2 <= length l)%nat ->
  (forall q, In q l -> (mn <= q <= mx)%Q) ->
  exists lo hi rest,
    Permutation l (lo :: hi :: rest) /\ (lo == mn)%Q /\ (hi == mx)%Q.
Proof.
  intros Hmn Hmx Hlen Hall.
  destruct (in_split _ _ Hmn) as (l1 & l2 & ->).
  assert (P : Permutation (l1 ++ mn :: l2) (mn :: l1 ++ l2))
    by (symmetry; apply Permutation_middle).
  assert (Hmx' : In mx (mn :: l1 ++ l2)) by (eapply Permutation_in; eauto).
  destruct Hmx' as [E|Hin].
  - subst mx. destruct (l1 ++ l2) as [|y rest] eqn:El.
    + apply Permutation_length in P. rewrite length_app in Hlen.
      rewrite length_app in P. cbn in P, Hlen. lia.
    + exists mn, y, rest. split; [exact P|]. split; [reflexivity|].
      assert (Hy : In y (l1 ++ mn :: l2)).
      { eapply Permutation_in; [symmetry; exact P|]. right. now left. }
      specialize (Hall y Hy). lra.
  - destruct (in_split _ _ Hin) as (r1 & r2 & Er).
    exists mn, mx, (r1 ++ r2). split; [|split; reflexivity].
    rewrite P, Er. constructor. symmetry. apply Permutation_middle.
Qed.

(** *** Fits in exact arithmetic *)

Lemma Qabs_ge_apart (x y eps : Q) : (0 < eps)%Q -> (eps <= Qabs (x - y))%Q -> ~ (x - y == 0)%Q.
Proof.
  intros He H E. rewrite E in H. change (Qabs 0) with 0%Q in H. lra.
Qed.

Lemma exact_two_point_fit (bd : TwoPage.Board) (args : gmap string (option Q)) (x4 x7 : Q) :
  args !! "v4" = Some (Some x4) -> args !! "v7" = Some (Some x7) ->
  (0 < x4)%Q -> (0 < x7)%Q -> (1 # 100 <= Qabs (x4 - x7))%Q ->
  TwoPage.handleSetCal2 bd args
  = (TwoPage.saveOneLine bd (Some x4) (Some x7),
     Send 200 "text/plain" "Saved ONE line using pH 4.01 & 7.00")
  /\ exists r4 r7 : Q,
       let g := TwoPage.globals (TwoPage.saveOneLine bd (Some x4) (Some x7)) in
       TwoPage.calculatePH_piecewise g (Some x7) = Some r7 /\ (r7 == 7)%Q /\
       TwoPage.calculatePH_piecewise g (Some x4) = Some r4 /\ (r4 == 401 # 100)%Q.
Proof.
  intros H4 H7 P4 P7 Hd.
  assert (Hne : ~ (x4 - x7 == 0)%Q) by (apply (Qabs_ge_apart _ _ (1#100)); [reflexivity | assumption]).
  split.
  - unfold TwoPage.handleSetCal2, TwoPage.hasArg, TwoPage.arg. rewrite H4, H7.
    exact_simpl.
    rewrite (Qle_bool_false x4 0 P4), (Qle_bool_false x7 0 P7).
    rewrite (Qle_bool_true _ _ Hd). reflexivity.
  - unfold TwoPage.calculatePH_piecewise, TwoPage.saveOneLine, TwoPage.PH4, TwoPage.PH7.
    cbn [TwoPage.globals TwoPage.useTwoLines TwoPage.mLow TwoPage.bLow negb].
    exact_simpl. rewrite (Qeq_bool_false _ _ Hne). exact_simpl.
    eexists. eexists. repeat split.
    + field. intros E. apply Hne. lra.
    + field. intros E. apply Hne. lra.
Qed.

Lemma Qmult_apart (a b : Q) : ~ (a * b == 0)%Q -> ~ (a == 0)%Q /\ ~ (b == 0)%Q.
Proof.
  intros H. split; intros E; apply H; rewrite E; ring.
Qed.

Lemma Qabs_tiny_apart (d : Q) : (1 # 1000000000 <= Qabs d)%Q -> ~ (d == 0)%Q.
Proof.
  intros H E. rewrite E in H. change (Qabs 0) with 0%Q in H.
  apply Qle_bool_iff in H. discriminate H.
Qed.

Lemma exact_solveQuadratic (x1 y1 x2 y2 x3 y3 : Q) :
  (1 # 1000000000 <= Qabs ((x1 - x2) * (x1 - x3)))%Q ->
  (1 # 1000000000 <= Qabs ((x2 - x1) * (x2 - x3)))%Q ->
  (1 # 1000000000 <= Qabs ((x3 - x1) * (x3 - x2)))%Q ->
  exists a b c : Q,
    Quadratic.solveQuadraticFrom3Points
      (Some x1) (Some y1) (Some x2) (Some y2) (Some x3) (Some y3)
    = Some (Some a, Some b, Some c)
    /\ (a * x1 * x1 + b * x1 + c == y1)%Q
    /\ (a * x2 * x2 + b * x2 + c == y2)%Q
    /\ (a * x3 * x3 + b * x3 + c == y3)%Q.
Proof.
  intros H1 H2 H3.
  pose proof (Qabs_tiny_apart _ H1) as N1.
  pose proof (Qabs_tiny_apart _ H2) as N2.
  pose proof (Qabs_tiny_apart _ H3) as N3.
  destruct (Qmult_apart _ _ N1) as [D12 D13].
  destruct (Qmult_apart _ _ N2) as [_ D23].
  unfold Quadratic.solveQuadraticFrom3Points. exact_simpl.
  rewrite (Qle_bool_true _ _ H1), (Qle_bool_true _ _ H2), (Qle_bool_true _ _ H3).
  cbn [negb orb].
  rewrite (Qeq_bool_false _ _ N1), (Qeq_bool_false _ _ N2), (Qeq_bool_false _ _ N3).
  eexists. eexists. eexists. split; [reflexivity|].
  repeat split; field; repeat split; intros E;
    first [apply D12; lra | apply D13; lra | apply D23; lra].
Qed.

Lemma exact_three_point_piecewise
    (bd : TwoPage.Board) (args : gmap string (option Q)) (x4 x7 x9 : Q) :
  args !! "v4" = Some (Some x4) -> args !! "v7" = Some (Some x7) ->
  args !! "v9" = Some (Some x9) ->
  (0 < x4)%Q -> (0 < x7)%Q -> (0 < x9)%Q ->
  (1 # 100 <= Qabs (x4 - x7))%Q -> (1 # 100 <= Qabs (x9 - x7))%Q ->
  (1 # 100 <= Qabs (x9 - x4))%Q ->
  TwoPage.handleSetCal3 bd args
  = (TwoPage.saveTwoLines bd (Some x4) (Some x7) (Some x9),
     Send 200 "text/plain" "Saved TWO lines (4->7) and (7->9.18)")
  /\ exists l4 l7 h7 h9 : Q,
       let g := TwoPage.globals (TwoPage.saveTwoLines bd (Some x4) (Some x7) (Some x9)) in
       line (TwoPage.mLow g) (TwoPage.bLow g) (Some x7) = Some l7 /\ (l7 == 7)%Q /\
       line (TwoPage.mHigh g) (TwoPage.bHigh g) (Some x7) = Some h7 /\ (h7 == 7)%Q /\
       line (TwoPage.mHigh g) (TwoPage.bHigh g) (Some x9) = Some h9 /\ (h9 == 918 # 100)%Q /\
       line (TwoPage.mLow g) (TwoPage.bLow g) (Some x4) = Some l4 /\ (l4 == 401 # 100)%Q /\
       TwoPage.calculatePH_piecewise g (Some x7) = Some l7 /\
       (((x9 < x7 < x4)%Q \/ (x4 < x7 < x9)%Q) ->
        TwoPage.calculatePH_piecewise g (Some x9) = Some h9 /\
        TwoPage.calculatePH_piecewise g (Some x4) = Some l4).
Proof.
  intros H4 H7 H9 P4 P7 P9 D47 D97 D94.
  assert (N47 : ~ (x4 - x7 == 0)%Q)
    by (apply (Qabs_ge_apart _ _ (1#100)); [reflexivity | assumption]).
  assert (N97 : ~ (x9 - x7 == 0)%Q)
    by (apply (Qabs_ge_apart _ _ (1#100)); [reflexivity | assumption]).
  assert (N79 : ~ (x7 - x9 == 0)%Q) by (intros E; apply N97; lra).
  split.
  - unfold TwoPage.handleSetCal3, TwoPage.hasArg, TwoPage.arg. rewrite H4, H7, H9.
    exact_simpl.
    rewrite (Qle_bool_false x4 0 P4), (Qle_bool_false x7 0 P7), (Qle_bool_false x9 0 P9).
    rewrite (Qle_bool_true _ _ D47), (Qle_bool_true _ _ D97), (Qle_bool_true _ _ D94).
    reflexivity.
  - unfold TwoPage.calculatePH_piecewise, TwoPage.saveTwoLines, TwoPage.PH4, TwoPage.PH7,
      TwoPage.PH9, line.
    cbn [TwoPage.globals TwoPage.useTwoLines TwoPage.typicalDirection TwoPage.v7_break
         TwoPage.mLow TwoPage.bLow TwoPage.mHigh TwoPage.bHigh negb].
    exact_simpl. rewrite (Qeq_bool_false _ _ N47), (Qeq_bool_false _ _ N79). exact_simpl.
    eexists. eexists. eexists. eexists.
    split; [reflexivity|]. split; [field; exact N47|].
    split; [reflexivity|]. split; [field; exact N79|].
    split; [reflexivity|]. split; [field; exact N79|].
    split; [reflexivity|]. split; [field; exact N47|].
    split.
    + rewrite (Qle_bool_true x7 x7) by lra. now destruct (negb (Qle_bool x4 x7)).
    + intros [[Ha Hb]|[Ha Hb]].
      * rewrite (Qle_bool_false x4 x7) by lra. cbn [negb].
        rewrite (Qle_bool_false x7 x9) by lra.
        rewrite (Qle_bool_true x7 x4) by lra. split; reflexivity.
      * rewrite (Qle_bool_true x4 x7) by lra. cbn [negb].
        rewrite (Qle_bool_false x9 x7) by lra. split; reflexivity.
Qed.

Lemma Qabs_product_apart (a b : Q) :
  (1 # 100 <= Qabs a)%Q -> (1 # 100 <= Qabs b)%Q -> (1 # 1000000000 <= Qabs (a * b))%Q.
Proof.
  intros Ha Hb. rewrite Qabs_Qmult.
  generalize dependent (Qabs b). generalize dependent (Qabs a). intros p Hp q Hq. nra.
Qed.

Lemma Qabs_swap_apart (x y eps : Q) : (eps <= Qabs (x - y))%Q -> (eps <= Qabs (y - x))%Q.
Proof. intros H. now rewrite Qabs_Qminus. Qed.

Lemma exact_three_point_quadratic (fmt : option Q -> nat -> string)
    (bd : Quadratic.Board) (args : gmap string (option Q)) (x4 x7 x9 : Q) :
  args !! "v4" = Some (Some x4) -> args !! "v7" = Some (Some x7) ->
  args !! "v9" = Some (Some x9) ->
  (0 < x4)%Q -> (0 < x7)%Q -> (0 < x9)%Q ->
  (1 # 100 <= Qabs (x4 - x7))%Q -> (1 # 100 <= Qabs (x9 - x7))%Q ->
  (1 # 100 <= Qabs (x9 - x4))%Q ->
  exists a b c r4 r7 r9 : Q,
    status (snd (Quadratic.handleSetCal3 fmt bd args)) = 200 /\
    fst (Quadratic.handleSetCal3 fmt bd args)
    = Quadratic.saveQuadratic bd (Some a) (Some b) (Some c) /\
    let g := Quadratic.globals (fst (Quadratic.handleSetCal3 fmt bd args)) in
    Quadratic.calculatePH g (Some x4) = Some r4 /\ (r4 == 401 # 100)%Q /\
    Quadratic.calculatePH g (Some x7) = Some r7 /\ (r7 == 7)%Q /\
    Quadratic.calculatePH g (Some x9) = Some r9 /\ (r9 == 918 # 100)%Q.
Proof.
  intros H4 H7 H9 P4 P7 P9 D47 D97 D94.
  pose proof (Qabs_swap_apart _ _ _ D47) as D74.
  pose proof (Qabs_swap_apart _ _ _ D97) as D79.
  pose proof (Qabs_swap_apart _ _ _ D94) as D49.
  destruct (exact_solveQuadratic x4 (401 # 100) x7 (700 # 100) x9 (918 # 100))
    as (a & b & c & Hsolve & E4 & E7 & E9);
    try (apply Qabs_product_apart; assumption).
  exists a, b, c.
  unfold Quadratic.handleSetCal3, Quadratic.hasArg, Quadratic.arg. rewrite H4, H7, H9.
  exact_simpl.
  rewrite (Qle_bool_false x4 0 P4), (Qle_bool_false x7 0 P7), (Qle_bool_false x9 0 P9).
  rewrite (Qle_bool_true _ _ D47), (Qle_bool_true _ _ D97), (Qle_bool_true _ _ D94).
  cbn [negb orb].
  unfold Quadratic.PH4, Quadratic.PH7, Quadratic.PH9. exact_simpl.
  rewrite Hsolve. cbn [fst snd status Quadratic.globals Quadratic.saveQuadratic
    Quadratic.calculatePH Quadratic.useQuadratic Quadratic.qa Quadratic.qb Quadratic.qc].
  exact_simpl.
  eexists. eexists. eexists.
  split; [reflexivity|]. split; [reflexivity|].
  split; [reflexivity|]. split; [exact E4|].
  split; [reflexivity|]. split; [rewrite E7; reflexivity|].
  split; [reflexivity|]. exact E9.
Qed.

Lemma exact_two_point_linear (fmt : option Q -> nat -> string)
    (bd : Quadratic.Board) (args : gmap string (option Q)) (x4 x7 : Q) :
  args !! "v4" = Some (Some x4) -> args !! "v7" = Some (Some x7) ->
  (0 < x4)%Q -> (0 < x7)%Q -> (1 # 100 <= Qabs (x4 - x7))%Q ->
  exists m b r4 r7 : Q,
    status (snd (Quadratic.handleSetCal2 fmt bd args)) = 200 /\
    fst (Quadratic.handleSetCal2 fmt bd args) = Quadratic.saveLinear bd (Some m) (Some b) /\
    let g := Quadratic.globals (fst (Quadratic.handleSetCal2 fmt bd args)) in
    Quadratic.calculatePH g (Some x7) = Some r7 /\ (r7 == 7)%Q /\
    Quadratic.calculatePH g (Some x4) = Some r4 /\ (r4 == 401 # 100)%Q.
Proof.
  intros H4 H7 P4 P7 Hd.
  assert (Hne : ~ (x4 - x7 == 0)%Q)
    by (apply (Qabs_ge_apart _ _ (1#100)); [reflexivity | assumption]).
  unfold Quadratic.handleSetCal2, Quadratic.hasArg, Quadratic.arg. rewrite H4, H7.
  exact_simpl.
  rewrite (Qle_bool_false x4 0 P4), (Qle_bool_false x7 0 P7).
  rewrite (Qle_bool_true _ _ Hd). cbn [negb orb].
  unfold Quadratic.PH4, Quadratic.PH7. exact_simpl.
  rewrite (Qeq_bool_false _ _ Hne). exact_simpl.
  cbn [fst snd status Quadratic.globals Quadratic.saveLinear
    Quadratic.calculatePH Quadratic.useQuadratic Quadratic.linM Quadratic.linB].
  exact_simpl.
  eexists. eexists. eexists. eexists.
  split; [reflexivity|]. split; [reflexivity|].
  split; [reflexivity|]. split; [field; exact Hne|].
  split; [reflexivity|]. field; exact Hne.
Qed.

(** ** The sampler *)

Lemma b32_trimmed_extremes (N : nat) (src : nat -> spec_float) :
  (1 <= N)%nat ->
  Forall (fun x => (- flit 1000000000 1 <? x)%fl = true
                   /\ (x <? flit 1000000000 1)%fl = true) (readings N src) ->
  exists mn mx : spec_float,
    In mn (readings N src) /\ In mx (readings N src) /\
    Forall (fun x => (mn <=? x)%fl = true /\ (x <=? mx)%fl = true) (readings N src) /\
    trimmed_mean N src
    = ((running_sum (readings N src) (flit 0 1) - mn - mx) / flit (Z.of_nat N - 2) 1)%fl.
Proof.
  intros HN Hbound.
  exists (running_min (readings N src) (flit 1000000000 1)),
         (running_max (readings N src) (- flit 1000000000 1)%fl).
  rewrite trimmed_mean_formula.
  destruct N as [|n]; [lia|].
  unfold readings in *. cbn [seq map] in *.
  inversion Hbound as [|? ? [Hlo Hhi] Hrest]; subst.
  destruct (running_extremes_in (O := binary32) (fun x : spec_float => x <> S754_nan)
              SFleb_refl SFleb_trans SFltb_le SFleb_total
              (src 0%nat) (map src (seq 1 n))
              (- flit 1000000000 1)%fl (flit 1000000000 1)) as (Hmn & Hmx & Hall).
  - rewrite List.Forall_forall in *. intros x Hx. destruct (Hbound x Hx) as [_ Hlt].
    intros ->. discriminate Hlt.
  - exact Hhi.
  - exact Hlo.
  - repeat split; assumption.
Qed.

Lemma exact_trimmed_mean (N : nat) (src : nat -> option Q) (qs : list Q) :
  readings N src = map Some qs ->
  (3 <= N)%nat ->
  (forall q, In q qs -> (- (1000000000 # 1) < q < 1000000000 # 1)%Q) ->
  exists (lo hi : Q) (rest : list Q) (r : Q),
    Permutation qs (lo :: hi :: rest) /\
    (forall q, In q qs -> (lo <= q <= hi)%Q) /\
    trimmed_mean N src = Some r /\
    (r == Qsum rest / inject_Z (Z.of_nat N - 2))%Q.
Proof.
  intros Hsrc HN Hbound.
  assert (Hlen : length qs = N).
  { apply (f_equal (@length _)) in Hsrc. unfold readings in Hsrc.
    rewrite !length_map, length_seq in Hsrc. congruence. }
  rewrite trimmed_mean_formula, Hsrc.
  destruct qs as [|q0 qs']; [cbn in Hlen; lia|].
  destruct (running_extremes_in (O := exactQ) is_number
              exact_le_refl exact_le_trans exact_lt_le exact_le_total
              (Some q0) (map Some qs')
              (- flit 1000000000 1)%fl (flit 1000000000 1)) as (Hmn & Hmx & Hall).
  - change (Some q0 :: map Some qs') with (map Some (q0 :: qs')).
    apply List.Forall_forall. intros x Hx. apply in_map_iff in Hx as (q & <- & _). discriminate.
  - exact_simpl. rewrite Qle_bool_false; [reflexivity|]. apply Hbound. now left.
  - exact_simpl. rewrite Qle_bool_false; [reflexivity|].
    destruct (Hbound q0) as [Hlo _]; [now left | exact Hlo].
  - change (Some q0 :: map Some qs') with (map Some (q0 :: qs')) in *.
    apply in_map_iff in Hmn as (m & Hm & Hmin).
    apply in_map_iff in Hmx as (M & HM & HMin).
    rewrite <- Hm, <- HM in *.
    assert (Hord : forall q, In q (q0 :: qs') -> (m <= q <= M)%Q).
    { intros q Hq. rewrite List.Forall_forall in Hall.
      destruct (Hall (Some q)) as [H1 H2]; [apply in_map; exact Hq|].
      cbn in H1, H2. apply Qle_bool_iff in H1. apply Qle_bool_iff in H2. split; assumption. }
    destruct (pick_extremes (q0 :: qs') m M Hmin HMin ltac:(lia) Hord)
      as (lo & hi & rest & Hperm & Elo & Ehi).
    exists lo, hi, rest.
    exact_simpl. rewrite (exact_running_sum (q0 :: qs') 0). exact_simpl.
    rewrite Qeq_bool_false.
    + eexists. split; [exact Hperm|]. split.
      * intros q Hq. rewrite Elo, Ehi. apply Hord, Hq.
      * split; [reflexivity|].
        assert (E : (fold_left Qplus (q0 :: qs') 0 - m - M == Qsum rest)%Q).
        { rewrite Qsum_fold_left, (Qsum_permutation _ _ Hperm).
          cbn [Qsum fold_right]. fold (Qsum rest). rewrite Elo, Ehi. ring. }
        rewrite E. reflexivity.
    + intros E. unfold Qeq in E. cbn in E. lia.
Qed.

(** ** Classification of rejected fits *)

Section Classification.
Context {F : Type} {O : FloatOps F}.
Local Open Scope fl_scope.






End Classification.





(** ** The sampler, ADC branch *)

Lemma Zsum_permutation (l l' : list Z) : Permutation l l' -> Zsum l = Zsum l'.
Proof.
  induction 1 as [|x l l' _ IH|x y l|l l' l'' _ IH1 _ IH2]; cbn [Zsum fold_right].
  - reflexivity.
  - fold (Zsum l) (Zsum l'). lia.
  - lia.
  - lia.
Qed.

Lemma pick_extremes_Z (l : list Z) (mn mx : Z) :
  In mn l -> In mx l -> (2 <= length l)%nat ->
  (forall z, In z l -> mn <= z <= mx) ->
  exists rest, Permutation l (mn :: mx :: rest).
Proof.
  intros Hmn Hmx Hlen Hall.
  destruct (in_split _ _ Hmn) as (l1 & l2 & ->).
  assert (P : Permutation (l1 ++ mn :: l2) (mn :: l1 ++ l2))
    by (symmetry; apply Permutation_middle).
  assert (Hmx' : In mx (mn :: l1 ++ l2)) by (eapply Permutation_in; eauto).
  destruct Hmx' as [E|Hin].
  - subst mx. destruct (l1 ++ l2) as [|y rest] eqn:El.
    + apply Permutation_length in P. rewrite length_app in Hlen.
      rewrite length_app in P. cbn in P, Hlen. lia.
    + assert (Hy : In y (l1 ++ mn :: l2)).
      { eapply Permutation_in; [symmetry; exact P|]. right. now left. }
      specialize (Hall y Hy). assert (y = mn) by lia. subst y.
      exists rest. exact P.
  - destruct (in_split _ _ Hin) as (r1 & r2 & Er).
    exists (r1 ++ r2). rewrite P, Er. constructor. symmetry. apply Permutation_middle.
Qed.

Lemma adc_fold_spec (src : nat -> Z) (idx : list nat) (sum mn mx : Z) :
  (forall i, In i idx -> 0 <= src i <= 4095) ->
  0 <= sum -> sum + 4095 * Z.of_nat (length idx) < 2 ^ 32 ->
  fold_left (TwoPage.adc_step src) idx (sum, mn, mx)
  = (sum + Zsum (map src idx),
     fold_left Z.min (map src idx) mn,
     fold_left Z.max (map src idx) mx).
Proof.
  revert sum mn mx. induction idx as [|i idx IH]; intros sum mn mx Hr Hs Hb.
  - cbn. f_equal. f_equal. lia.
  - cbn [fold_left map Zsum fold_right]. fold (Zsum (map src idx)).
    assert (Hi : 0 <= src i <= 4095) by (apply Hr; now left).
    cbn [length] in Hb.
    unfold TwoPage.adc_step at 2.
    rewrite (Z.mod_small (src i)) by lia.
    rewrite (Z.mod_small (sum + src i)) by lia.
    rewrite IH; [|intros j Hj; apply Hr; now right|lia|lia].
    f_equal; [f_equal; [lia|]|].
    + f_equal. destruct (Z.ltb_spec (src i) mn); lia.
    + f_equal. rewrite Z.gtb_ltb. destruct (Z.ltb_spec mx (src i)); lia.
Qed.

Lemma fold_min_spec (l : list Z) (init : Z) :
  (fold_left Z.min l init = init \/ In (fold_left Z.min l init) l) /\
  fold_left Z.min l init <= init /\
  (forall z, In z l -> fold_left Z.min l init <= z).
Proof.
  revert init. induction l as [|a l IH]; intros init; cbn [fold_left].
  - split; [now left|]. split; [lia|]. intros z [].
  - destruct (IH (Z.min init a)) as (Hin & Hle & Hall).
    split; [|split].
    + destruct Hin as [E|Hin]; [|right; now right].
      rewrite E. destruct (Z.min_spec init a) as [[_ ->]|[_ ->]]; [now left|right; now left].
    + lia.
    + intros z [<-|Hz]; [lia|]. now apply Hall.
Qed.

Lemma fold_max_spec (l : list Z) (init : Z) :
  (fold_left Z.max l init = init \/ In (fold_left Z.max l init) l) /\
  init <= fold_left Z.max l init /\
  (forall z, In z l -> z <= fold_left Z.max l init).
Proof.
  revert init. induction l as [|a l IH]; intros init; cbn [fold_left].
  - split; [now left|]. split; [lia|]. intros z [].
  - destruct (IH (Z.max init a)) as (Hin & Hle & Hall).
    split; [|split].
    + destruct Hin as [E|Hin]; [|right; now right].
      rewrite E. destruct (Z.max_spec init a) as [[_ ->]|[_ ->]]; [right; now left|now left].
    + lia.
    + intros z [<-|Hz]; [lia|]. now apply Hall.
Qed.

Lemma Zsum_bounds (k : list Z) :
  (forall z, In z k -> 0 <= z <= 4095) -> 0 <= Zsum k <= 4095 * Z.of_nat (length k).
Proof.
  induction k as [|z k IHk]; intros Hk; cbn [Zsum fold_right length].
  - lia.
  - fold (Zsum k). pose proof (Hk z (or_introl eq_refl)).
    assert (0 <= Zsum k <= 4095 * Z.of_nat (length k))
      by (apply IHk; intros; apply Hk; now right).
    lia.
Qed.

(** What the loop leaves in [sum] after [sum -= mn; sum -= mx], for counts
    of a 12-bit converter. *)
Lemma adc_extremes_removed (l : list Z) :
  (2 <= length l <= 1000)%nat ->
  (forall z, In z l -> 0 <= z <= 4095) ->
  exists rest : list Z,
    Permutation l (fold_left Z.min l 4095 :: fold_left Z.max l 0 :: rest) /\
    (forall z, In z l -> fold_left Z.min l 4095 <= z <= fold_left Z.max l 0) /\
    ((0 + Zsum l - fold_left Z.min l 4095) mod 2 ^ 32 - fold_left Z.max l 0) mod 2 ^ 32
    = Zsum rest.
Proof.
  intros Hlen Hl.
  destruct (fold_min_spec l 4095) as (Hmin & Hmin_le & Hmin_all).
  destruct (fold_max_spec l 0) as (Hmax & Hmax_le & Hmax_all).
  generalize dependent (fold_left Z.max l 0). generalize dependent (fold_left Z.min l 4095).
  intros mn Hmin Hmin_le Hmin_all mx Hmax Hmax_le Hmax_all.
  assert (Hne : exists z0, In z0 l).
  { destruct l as [|z0 l']; [cbn in Hlen; lia|]. exists z0. now left. }
  assert (Imn : In mn l).
  { destruct Hmin as [E|H]; [|exact H]. destruct Hne as (z0 & Hz0).
    assert (z0 = mn) by (pose proof (Hmin_all z0 Hz0); pose proof (Hl z0 Hz0); lia).
    now subst z0. }
  assert (Imx : In mx l).
  { destruct Hmax as [E|H]; [|exact H]. destruct Hne as (z0 & Hz0).
    assert (z0 = mx) by (pose proof (Hmax_all z0 Hz0); pose proof (Hl z0 Hz0); lia).
    now subst z0. }
  assert (Hord : forall z, In z l -> mn <= z <= mx).
  { intros z Hz. split; [now apply Hmin_all | now apply Hmax_all]. }
  destruct (pick_extremes_Z l mn mx Imn Imx ltac:(lia) Hord) as (rest & Hperm).
  exists rest. split; [exact Hperm|]. split; [exact Hord|].
  pose proof (Zsum_permutation _ _ Hperm) as Es. cbn [Zsum fold_right] in Es.
  fold (Zsum rest) in Es.
  assert (Hrest : 0 <= Zsum rest <= 4095 * 1000).
  { pose proof (Zsum_bounds rest) as Hb.
    assert (Hrl : (length rest <= 1000)%nat).
    { apply Permutation_length in Hperm. cbn [length] in Hperm. lia. }
    assert (0 <= Zsum rest <= 4095 * Z.of_nat (length rest)); [|lia].
    apply Hb. intros z Hz. apply Hl. eapply Permutation_in; [symmetry; exact Hperm|].
    right. now right. }
  pose proof (Hl mx Imx).
  rewrite Z.add_0_l, Es.
  replace (mn + (mx + Zsum rest) - mn) with (mx + Zsum rest) by lia.
  rewrite (Z.mod_small (mx + Zsum rest)) by lia.
  replace (mx + Zsum rest - mx) with (Zsum rest) by lia.
  apply Z.mod_small. lia.
Qed.

Section AdcBranch.
Context {F : Type} {O : FloatOps F}.

Lemma adc_trimmed_mean (src : nat -> Z) :
  (forall i, (i < 25)%nat -> 0 <= src i <= 4095) ->
  exists (lo hi : Z) (rest : list Z),
    Permutation (map src (seq 0 25)) (lo :: hi :: rest) /\
    (forall z, In z (map src (seq 0 25)) -> lo <= z <= hi) /\
    TwoPage.readVoltageRawTrimmed_adc src
    = fmul (fdiv (fdiv (flit (Zsum rest) 1) (flit 23 1)) TwoPage.ADC_MAX) TwoPage.ADC_VREF.
Proof.
  intros Hr.
  assert (Hidx : forall i, In i (seq 0 25) -> 0 <= src i <= 4095).
  { intros i Hi. apply in_seq in Hi. apply Hr. lia. }
  assert (Hl : forall z, In z (map src (seq 0 25)) -> 0 <= z <= 4095).
  { intros z Hz. apply in_map_iff in Hz as (i & <- & Hi). now apply Hidx. }
  destruct (adc_extremes_removed (map src (seq 0 25))) as (rest & Hperm & Hord & Esum).
  { rewrite length_map, length_seq. lia. }
  { exact Hl. }
  exists (fold_left Z.min (map src (seq 0 25)) 4095),
         (fold_left Z.max (map src (seq 0 25)) 0), rest.
  split; [exact Hperm|]. split; [exact Hord|].
  unfold TwoPage.readVoltageRawTrimmed_adc, TwoPage.adc_loop.
  rewrite (adc_fold_spec src (seq 0 25) 0 4095 0 Hidx); [|lia|rewrite length_seq; lia].
  rewrite Esum. reflexivity.
Qed.
End AdcBranch.

(** ** The smoother (any arithmetic) *)

Section SmootherAny.
Context {F : Type} {O : FloatOps F}.

Lemma iir_update_running (alpha filt v : F) :
  fisnan filt = false ->
  iir_update alpha filt v
  = (fadd filt (fmul alpha (fsub v filt)), fadd filt (fmul alpha (fsub v filt))).
Proof. intros H. unfold iir_update. rewrite H. reflexivity. Qed.

Lemma iir_update_seeds (alpha filt v : F) :
  fisnan filt = true ->
  iir_update alpha filt v = iir_update alpha v v.
Proof.
  intros H. unfold iir_update. rewrite H.
  destruct (fisnan v); reflexivity.
Qed.
End SmootherAny.

(** * The claims *)

(** ** Segment selection (C1, C10) *)



(** C10.  In the two-line state, typical orientation takes the low line
    exactly when [v >= v7_break], inverted orientation exactly when
    [v <= v7_break]; so a voltage equal to the breakpoint ([v == v7_break])
    is evaluated on the low line in both orientations, and the two
    orientations are not mirror images at that point.  The same holds for
    [calculatePH_piecewise] of the earlier sketch. *)
Theorem C10_breakpoint_selects_low :
  (forall (g : TwoPage.Globals) (v : spec_float),
     TwoPage.useTwoLines g = true ->
     (TwoPage.typicalDirection g = true ->
        TwoPage.calculatePH_piecewise g v =
        if (v >=? TwoPage.v7_break g)%fl then line (TwoPage.mLow g) (TwoPage.bLow g) v
        else line (TwoPage.mHigh g) (TwoPage.bHigh g) v) /\
     (TwoPage.typicalDirection g = false ->
        TwoPage.calculatePH_piecewise g v =
        if (v <=? TwoPage.v7_break g)%fl then line (TwoPage.mLow g) (TwoPage.bLow g) v
        else line (TwoPage.mHigh g) (TwoPage.bHigh g) v) /\
     (SFeqb v (TwoPage.v7_break g) = true ->
        TwoPage.calculatePH_piecewise g v = line (TwoPage.mLow g) (TwoPage.bLow g) v))
  /\
  (forall (g : Part000.Globals) (v : spec_float),
     Part000.useTwoLines g = true ->
     (Part000.typicalDirection g = true ->
        Part000.calculatePH_piecewise g v =
        if (v >=? Part000.v7_break g)%fl then line (Part000.mLow g) (Part000.bLow g) v
        else line (Part000.mHigh g) (Part000.bHigh g) v) /\
     (Part000.typicalDirection g = false ->
        Part000.calculatePH_piecewise g v =
        if (v <=? Part000.v7_break g)%fl then line (Part000.mLow g) (Part000.bLow g) v
        else line (Part000.mHigh g) (Part000.bHigh g) v) /\
     (SFeqb v (Part000.v7_break g) = true ->
        Part000.calculatePH_piecewise g v = line (Part000.mLow g) (Part000.bLow g) v)).
Proof.
  split; intros g v Htwo.
  - unfold TwoPage.calculatePH_piecewise, line. rewrite Htwo. cbn [negb].
    repeat split.
    + intros ->. reflexivity.
    + intros ->. reflexivity.
    + intros Heq. destruct (SFeqb_le _ _ Heq) as [Hle Hge].
      cbn [fle binary32]. rewrite Hle, Hge. now destruct (TwoPage.typicalDirection g).
  - unfold Part000.calculatePH_piecewise, line. rewrite Htwo. cbn [negb].
    repeat split.
    + intros ->. reflexivity.
    + intros ->. reflexivity.
    + intros Heq. destruct (SFeqb_le _ _ Heq) as [Hle Hge].
      cbn [fle binary32]. rewrite Hle, Hge. now destruct (Part000.typicalDirection g).
Qed.

Lemma C10_breakpoint_selects_low_witness :
  TwoPage.useTwoLines reference_inverted = true /\
  TwoPage.typicalDirection reference_inverted = false /\
  SFeqb (b32_lit 2100 1000) (TwoPage.v7_break reference_inverted) = true /\
  TwoPage.calculatePH_piecewise reference_inverted (b32_lit 2100 1000)
  = line (TwoPage.mLow reference_inverted) (TwoPage.bLow reference_inverted)
         (b32_lit 2100 1000).
Proof.
  split; [reflexivity|]. split; [reflexivity|]. split; [vm_compute; reflexivity|].
  destruct (proj1 C10_breakpoint_selects_low reference_inverted (b32_lit 2100 1000) eq_refl)
    as (_ & _ & Hbp).
  apply Hbp. vm_compute. reflexivity.
Defined.

(** ** Rejection and persistence (C4, C6) *)

(** C4.  Whatever the arithmetic, a fit request that is answered with
    status 400 (non-positive voltage, voltages too close, and also a missing
    argument or an unsolvable quadratic) returns the board unchanged: every
    global variable (discriminant, direction flag, breakpoint, coefficients,
    filter state) and the whole NVS store.  In binary32, the two-point fit
    of V4 = 2.100 and V7 = 2.105 is rejected as too close and leaves the
    board intact. *)
Theorem C4_rejected_fit_changes_nothing :
  (forall (F : Type) (O : FloatOps F) (bd : TwoPage.Board) (args : gmap string F),
     (status (snd (TwoPage.handleSetCal2 bd args)) = 400 ->
      fst (TwoPage.handleSetCal2 bd args) = bd) /\
     (status (snd (TwoPage.handleSetCal3 bd args)) = 400 ->
      fst (TwoPage.handleSetCal3 bd args) = bd))
  /\
  (forall (F : Type) (O : FloatOps F) (fmt : F -> nat -> string)
          (bd : Quadratic.Board) (args : gmap string F),
     (status (snd (Quadratic.handleSetCal2 fmt bd args)) = 400 ->
      fst (Quadratic.handleSetCal2 fmt bd args) = bd) /\
     (status (snd (Quadratic.handleSetCal3 fmt bd args)) = 400 ->
      fst (Quadratic.handleSetCal3 fmt bd args) = bd))
  /\
  (forall bd : @TwoPage.Board spec_float,
     TwoPage.handleSetCal2 bd (request2 (b32_lit 2100 1000) (b32_lit 2105 1000))
     = (bd, Send 400 "text/plain" "v4 and v7 too close (bad calibration)")
     /\ error_kind (snd (TwoPage.handleSetCal2 bd
                           (request2 (b32_lit 2100 1000) (b32_lit 2105 1000))))
        = Some DegenerateFit).
Proof.
  split; [|split].
  - intros F O bd args. split.
    + apply twopage_setcal2_rejected.
    + apply twopage_setcal3_rejected.
  - intros F O fmt bd args. split.
    + apply quadratic_setcal2_rejected.
    + apply quadratic_setcal3_rejected.
  - intros bd. vm_compute. split; reflexivity.
Qed.

Lemma C4_rejected_fit_changes_nothing_witness :
  status (snd (TwoPage.handleSetCal2 (TwoPage.setup ∅)
                 (request2 (b32_lit 2100 1000) (b32_lit 2105 1000)))) = 400 /\
  fst (TwoPage.handleSetCal2 (TwoPage.setup ∅)
         (request2 (b32_lit 2100 1000) (b32_lit 2105 1000)))
  = TwoPage.setup (F := spec_float) ∅.
Proof.
  split; [vm_compute; reflexivity|].
  apply (proj1 (proj1 C4_rejected_fit_changes_nothing spec_float binary32 _ _)).
  vm_compute. reflexivity.
Defined.


(** ** Fits (C2, C3, C9) *)

(** C2, as amended.  In exact arithmetic, every valid three-point request
    (all voltages positive, every pair at least 0.01 apart) is accepted,
    and the two fitted segments meet at the breakpoint: both give exactly
    7.00 at [V7], which is also what [calculatePH_piecewise] returns there;
    the high segment gives exactly 9.18 at [V9] and the low segment exactly
    4.01 at [V4], and these are the values of [calculatePH_piecewise] when
    the three voltages are monotone.  In binary32, for the reference inputs
    2.600, 2.100, 1.800 both segments and [calculatePH_piecewise] give 7.00
    within 1e-4 at 2.100, and the high segment (selected at 1.800) gives
    9.18 within 1e-4. *)
Theorem C2_three_point_piecewise_fit :
  (forall (bd : TwoPage.Board) (args : gmap string (option Q)) (x4 x7 x9 : Q),
     args !! "v4" = Some (Some x4) -> args !! "v7" = Some (Some x7) ->
     args !! "v9" = Some (Some x9) ->
     (0 < x4)%Q -> (0 < x7)%Q -> (0 < x9)%Q ->
     (1 # 100 <= Qabs (x4 - x7))%Q -> (1 # 100 <= Qabs (x9 - x7))%Q ->
     (1 # 100 <= Qabs (x9 - x4))%Q ->
     TwoPage.handleSetCal3 bd args
     = (TwoPage.saveTwoLines bd (Some x4) (Some x7) (Some x9),
        Send 200 "text/plain" "Saved TWO lines (4->7) and (7->9.18)")
     /\ exists l4 l7 h7 h9 : Q,
          let g := TwoPage.globals (TwoPage.saveTwoLines bd (Some x4) (Some x7) (Some x9)) in
          line (TwoPage.mLow g) (TwoPage.bLow g) (Some x7) = Some l7 /\ (l7 == 7)%Q /\
          line (TwoPage.mHigh g) (TwoPage.bHigh g) (Some x7) = Some h7 /\ (h7 == 7)%Q /\
          line (TwoPage.mHigh g) (TwoPage.bHigh g) (Some x9) = Some h9 /\
          (h9 == 918 # 100)%Q /\
          line (TwoPage.mLow g) (TwoPage.bLow g) (Some x4) = Some l4 /\
          (l4 == 401 # 100)%Q /\
          TwoPage.calculatePH_piecewise g (Some x7) = Some l7 /\
          (((x9 < x7 < x4)%Q \/ (x4 < x7 < x9)%Q) ->
           TwoPage.calculatePH_piecewise g (Some x9) = Some h9 /\
           TwoPage.calculatePH_piecewise g (Some x4) = Some l4))
  /\
  (forall bd : @TwoPage.Board spec_float,
     let r := TwoPage.handleSetCal3 bd
                (request3 (b32_lit 2600 1000) (b32_lit 2100 1000) (b32_lit 1800 1000)) in
     let g := TwoPage.globals (fst r) in
     status (snd r) = 200 /\
     within tol 7 (line (TwoPage.mLow g) (TwoPage.bLow g) (b32_lit 2100 1000)) = true /\
     within tol 7 (line (TwoPage.mHigh g) (TwoPage.bHigh g) (b32_lit 2100 1000)) = true /\
     within tol 7 (TwoPage.calculatePH_piecewise g (b32_lit 2100 1000)) = true /\
     TwoPage.calculatePH_piecewise g (b32_lit 1800 1000)
     = line (TwoPage.mHigh g) (TwoPage.bHigh g) (b32_lit 1800 1000) /\
     within tol (918 # 100) (TwoPage.calculatePH_piecewise g (b32_lit 1800 1000)) = true).
Proof.
  split.
  - exact exact_three_point_piecewise.
  - intros bd. vm_compute. repeat split.
Qed.

Lemma C2_three_point_piecewise_fit_witness :
  exists l4 l7 h7 h9 : Q,
    let g := TwoPage.globals
               (TwoPage.saveTwoLines (TwoPage.setup ∅)
                  (Some (26 # 10)) (Some (21 # 10)) (Some (18 # 10))) in
    line (TwoPage.mLow g) (TwoPage.bLow g) (Some (21 # 10)) = Some l7 /\ (l7 == 7)%Q /\
    line (TwoPage.mHigh g) (TwoPage.bHigh g) (Some (21 # 10)) = Some h7 /\ (h7 == 7)%Q /\
    line (TwoPage.mHigh g) (TwoPage.bHigh g) (Some (18 # 10)) = Some h9 /\
    (h9 == 918 # 100)%Q /\
    line (TwoPage.mLow g) (TwoPage.bLow g) (Some (26 # 10)) = Some l4 /\
    (l4 == 401 # 100)%Q /\
    TwoPage.calculatePH_piecewise g (Some (21 # 10)) = Some l7 /\
    (((18 # 10 < 21 # 10 < 26 # 10)%Q \/ (26 # 10 < 21 # 10 < 18 # 10)%Q) ->
     TwoPage.calculatePH_piecewise g (Some (18 # 10)) = Some h9 /\
     TwoPage.calculatePH_piecewise g (Some (26 # 10)) = Some l4).
Proof.
  refine (proj2 (proj1 C2_three_point_piecewise_fit (TwoPage.setup ∅)
                  (request3 (Some (26 # 10)) (Some (21 # 10)) (Some (18 # 10)))
                  (26 # 10) (21 # 10) (18 # 10) _ _ _ _ _ _ _ _ _)%Q);
    vm_compute; solve [reflexivity | discriminate].
Defined.

(** Against C2 as stated: in binary32 the accepted request V4 = 27.38,
    V7 = 27.36, V9 = 27.35 yields a model whose low segment, the one
    [calculatePH_piecewise] selects at the breakpoint, evaluates to
    7.000244140625 at [V7] while the high segment gives 7.0 there, and whose
    high segment, selected at [V9], evaluates to 9.1796875. *)
Lemma C2_tolerance_fails_off_reference :
  let V4 := b32_lit 2738 100 in
  let V7 := b32_lit 2736 100 in
  let V9 := b32_lit 2735 100 in
  let r := TwoPage.handleSetCal3 (TwoPage.setup ∅) (request3 V4 V7 V9) in
  let g := TwoPage.globals (fst r) in
  (V4 >? flit 0 1)%fl = true /\ (V7 >? flit 0 1)%fl = true /\ (V9 >? flit 0 1)%fl = true /\
  (fabs (V4 - V7) >=? flit 1 100)%fl = true /\ (fabs (V9 - V7) >=? flit 1 100)%fl = true /\
  (fabs (V9 - V4) >=? flit 1 100)%fl = true /\
  status (snd r) = 200 /\
  TwoPage.calculatePH_piecewise g V7 = line (TwoPage.mLow g) (TwoPage.bLow g) V7 /\
  B2Q (line (TwoPage.mLow g) (TwoPage.bLow g) V7) = Some (14680576 # 2097152)%Q /\
  B2Q (line (TwoPage.mHigh g) (TwoPage.bHigh g) V7) = Some (14680064 # 2097152)%Q /\
  within tol 7 (TwoPage.calculatePH_piecewise g V7) = false /\
  TwoPage.calculatePH_piecewise g V9 = line (TwoPage.mHigh g) (TwoPage.bHigh g) V9 /\
  B2Q (line (TwoPage.mHigh g) (TwoPage.bHigh g) V9) = Some (9625600 # 1048576)%Q /\
  within tol (918 # 100) (TwoPage.calculatePH_piecewise g V9) = false.
Proof. vm_compute. repeat split. Qed.

(** C3, as amended.  In exact arithmetic, every valid two-point request
    (both voltages positive, at least 0.01 apart) is accepted and the fitted
    model evaluates to exactly 7.00 at [V7] and exactly 4.01 at [V4], in the
    one-line sketch and in the linear mode of the quadratic sketch.  In any
    arithmetic [saveOneLine] leaves a single shared segment: one-line mode
    with the high coefficients equal to the low ones.  In binary32, for
    V4 = 2.600 and V7 = 2.100 both sketches give 7.00 within 1e-4 at 2.100
    and 4.01 within 1e-4 at 2.600. *)
Theorem C3_two_point_fit :
  (forall (bd : TwoPage.Board) (args : gmap string (option Q)) (x4 x7 : Q),
     args !! "v4" = Some (Some x4) -> args !! "v7" = Some (Some x7) ->
     (0 < x4)%Q -> (0 < x7)%Q -> (1 # 100 <= Qabs (x4 - x7))%Q ->
     TwoPage.handleSetCal2 bd args
     = (TwoPage.saveOneLine bd (Some x4) (Some x7),
        Send 200 "text/plain" "Saved ONE line using pH 4.01 & 7.00")
     /\ exists r4 r7 : Q,
          let g := TwoPage.globals (TwoPage.saveOneLine bd (Some x4) (Some x7)) in
          TwoPage.calculatePH_piecewise g (Some x7) = Some r7 /\ (r7 == 7)%Q /\
          TwoPage.calculatePH_piecewise g (Some x4) = Some r4 /\ (r4 == 401 # 100)%Q)
  /\
  (forall (fmt : option Q -> nat -> string) (bd : Quadratic.Board)
          (args : gmap string (option Q)) (x4 x7 : Q),
     args !! "v4" = Some (Some x4) -> args !! "v7" = Some (Some x7) ->
     (0 < x4)%Q -> (0 < x7)%Q -> (1 # 100 <= Qabs (x4 - x7))%Q ->
     exists m b r4 r7 : Q,
       status (snd (Quadratic.handleSetCal2 fmt bd args)) = 200 /\
       fst (Quadratic.handleSetCal2 fmt bd args)
       = Quadratic.saveLinear bd (Some m) (Some b) /\
       let g := Quadratic.globals (fst (Quadratic.handleSetCal2 fmt bd args)) in
       Quadratic.calculatePH g (Some x7) = Some r7 /\ (r7 == 7)%Q /\
       Quadratic.calculatePH g (Some x4) = Some r4 /\ (r4 == 401 # 100)%Q)
  /\
  (forall (F : Type) (O : FloatOps F) (bd : TwoPage.Board) (V4 V7 : F),
     let g := TwoPage.globals (TwoPage.saveOneLine bd V4 V7) in
     TwoPage.useTwoLines g = false /\
     TwoPage.mHigh g = TwoPage.mLow g /\
     TwoPage.bHigh g = TwoPage.bLow g /\
     forall v, TwoPage.calculatePH_piecewise g v = line (TwoPage.mLow g) (TwoPage.bLow g) v)
  /\
  (forall bd : @TwoPage.Board spec_float,
     let r := TwoPage.handleSetCal2 bd (request2 (b32_lit 2600 1000) (b32_lit 2100 1000)) in
     let g := TwoPage.globals (fst r) in
     status (snd r) = 200 /\
     within tol 7 (TwoPage.calculatePH_piecewise g (b32_lit 2100 1000)) = true /\
     within tol (401 # 100) (TwoPage.calculatePH_piecewise g (b32_lit 2600 1000)) = true)
  /\
  (forall (fmt : spec_float -> nat -> string) (bd : @Quadratic.Board spec_float),
     let r := Quadratic.handleSetCal2 fmt bd
                (request2 (b32_lit 2600 1000) (b32_lit 2100 1000)) in
     let g := Quadratic.globals (fst r) in
     status (snd r) = 200 /\
     within tol 7 (Quadratic.calculatePH g (b32_lit 2100 1000)) = true /\
     within tol (401 # 100) (Quadratic.calculatePH g (b32_lit 2600 1000)) = true).
Proof.
  split; [exact exact_two_point_fit|].
  split; [exact exact_two_point_linear|].
  split; [|split].
  - intros F O bd V4 V7 g. subst g. repeat split.
  - intros bd. vm_compute. repeat split.
  - intros fmt bd. vm_compute. repeat split.
Qed.

Lemma C3_two_point_fit_witness :
  exists r4 r7 : Q,
    let g := TwoPage.globals
               (TwoPage.saveOneLine (TwoPage.setup ∅) (Some (26 # 10)) (Some (21 # 10))) in
    TwoPage.calculatePH_piecewise g (Some (21 # 10)) = Some r7 /\ (r7 == 7)%Q /\
    TwoPage.calculatePH_piecewise g (Some (26 # 10)) = Some r4 /\ (r4 == 401 # 100)%Q.
Proof.
  refine (proj2 (proj1 C3_two_point_fit (TwoPage.setup ∅)
                  (request2 (Some (26 # 10)) (Some (21 # 10)))
                  (26 # 10) (21 # 10) _ _ _ _ _)%Q);
    vm_compute; solve [reflexivity | discriminate].
Defined.

(** Against C3 as stated: in binary32 the accepted request V4 = 27.38,
    V7 = 27.36 yields a line that evaluates to 7.000244140625 at [V7], and
    the accepted request V4 = 31.71, V7 = 31.72 yields a line that evaluates
    to 4.0107421875 at [V4]. *)
Lemma C3_tolerance_fails_off_reference :
  (let V4 := b32_lit 2738 100 in
   let V7 := b32_lit 2736 100 in
   let r := TwoPage.handleSetCal2 (TwoPage.setup ∅) (request2 V4 V7) in
   let g := TwoPage.globals (fst r) in
   (V4 >? flit 0 1)%fl = true /\ (V7 >? flit 0 1)%fl = true /\
   (fabs (V4 - V7) >=? flit 1 100)%fl = true /\
   status (snd r) = 200 /\
   B2Q (TwoPage.calculatePH_piecewise g V7) = Some (14680576 # 2097152)%Q /\
   within tol 7 (TwoPage.calculatePH_piecewise g V7) = false)
  /\
  (let V4 := b32_lit 3171 100 in
   let V7 := b32_lit 3172 100 in
   let r := TwoPage.handleSetCal2 (TwoPage.setup ∅) (request2 V4 V7) in
   let g := TwoPage.globals (fst r) in
   (V4 >? flit 0 1)%fl = true /\ (V7 >? flit 0 1)%fl = true /\
   (fabs (V4 - V7) >=? flit 1 100)%fl = true /\
   status (snd r) = 200 /\
   B2Q (TwoPage.calculatePH_piecewise g V4) = Some (8411136 # 2097152)%Q /\
   within tol (401 # 100) (TwoPage.calculatePH_piecewise g V4) = false).
Proof. vm_compute. repeat split. Qed.

(** C9, as amended.  In exact arithmetic the coefficients returned by
    [solveQuadraticFrom3Points] make the quadratic pass exactly through the
    three control points whenever no denominator is within 1e-9 of zero;
    every valid three-point request (voltages positive, pairwise at least
    0.01 apart) is accepted by [handleSetCal3], and [calculatePH] then gives
    exactly 4.01 at [V4], 7.00 at [V7] and 9.18 at [V9].  In binary32, for
    the reference inputs 2.600, 2.100, 1.800 the three values hold within
    1e-4. *)
Theorem C9_quadratic_interpolates :
  (forall x1 y1 x2 y2 x3 y3 : Q,
     (1 # 1000000000 <= Qabs ((x1 - x2) * (x1 - x3)))%Q ->
     (1 # 1000000000 <= Qabs ((x2 - x1) * (x2 - x3)))%Q ->
     (1 # 1000000000 <= Qabs ((x3 - x1) * (x3 - x2)))%Q ->
     exists a b c : Q,
       Quadratic.solveQuadraticFrom3Points
         (Some x1) (Some y1) (Some x2) (Some y2) (Some x3) (Some y3)
       = Some (Some a, Some b, Some c)
       /\ (a * x1 * x1 + b * x1 + c == y1)%Q
       /\ (a * x2 * x2 + b * x2 + c == y2)%Q
       /\ (a * x3 * x3 + b * x3 + c == y3)%Q)
  /\
  (forall (fmt : option Q -> nat -> string) (bd : Quadratic.Board)
          (args : gmap string (option Q)) (x4 x7 x9 : Q),
     args !! "v4" = Some (Some x4) -> args !! "v7" = Some (Some x7) ->
     args !! "v9" = Some (Some x9) ->
     (0 < x4)%Q -> (0 < x7)%Q -> (0 < x9)%Q ->
     (1 # 100 <= Qabs (x4 - x7))%Q -> (1 # 100 <= Qabs (x9 - x7))%Q ->
     (1 # 100 <= Qabs (x9 - x4))%Q ->
     exists a b c r4 r7 r9 : Q,
       status (snd (Quadratic.handleSetCal3 fmt bd args)) = 200 /\
       fst (Quadratic.handleSetCal3 fmt bd args)
       = Quadratic.saveQuadratic bd (Some a) (Some b) (Some c) /\
       let g := Quadratic.globals (fst (Quadratic.handleSetCal3 fmt bd args)) in
       Quadratic.calculatePH g (Some x4) = Some r4 /\ (r4 == 401 # 100)%Q /\
       Quadratic.calculatePH g (Some x7) = Some r7 /\ (r7 == 7)%Q /\
       Quadratic.calculatePH g (Some x9) = Some r9 /\ (r9 == 918 # 100)%Q)
  /\
  (forall (fmt : spec_float -> nat -> string) (bd : @Quadratic.Board spec_float),
     let r := Quadratic.handleSetCal3 fmt bd
                (request3 (b32_lit 2600 1000) (b32_lit 2100 1000) (b32_lit 1800 1000)) in
     let g := Quadratic.globals (fst r) in
     status (snd r) = 200 /\
     within tol (401 # 100) (Quadratic.calculatePH g (b32_lit 2600 1000)) = true /\
     within tol 7 (Quadratic.calculatePH g (b32_lit 2100 1000)) = true /\
     within tol (918 # 100) (Quadratic.calculatePH g (b32_lit 1800 1000)) = true).
Proof.
  split; [exact exact_solveQuadratic|].
  split; [exact exact_three_point_quadratic|].
  intros fmt bd. vm_compute. repeat split.
Qed.

Lemma C9_quadratic_interpolates_witness :
  exists a b c : Q,
    Quadratic.solveQuadraticFrom3Points
      (Some (26 # 10)) (Some (401 # 100)) (Some (21 # 10)) (Some (7 # 1))
      (Some (18 # 10)) (Some (918 # 100))
    = Some (Some a, Some b, Some c)
    /\ (a * (26 # 10) * (26 # 10) + b * (26 # 10) + c == 401 # 100)%Q
    /\ (a * (21 # 10) * (21 # 10) + b * (21 # 10) + c == 7)%Q
    /\ (a * (18 # 10) * (18 # 10) + b * (18 # 10) + c == 918 # 100)%Q.
Proof.
  refine (proj1 C9_quadratic_interpolates
            (26 # 10) (401 # 100) (21 # 10) (7 # 1) (18 # 10) (918 # 100) _ _ _)%Q;
    vm_compute; discriminate.
Defined.

(** The float bound of C9 does not hold for every valid input: in binary32
    the accepted request V4 = 3.3, V7 = 3.2, V9 = 3.1 yields a quadratic
    that misses each of its three control points by more than 1e-4. *)
Lemma C9_tolerance_fails_in_binary32 :
  let V4 := b32_lit 33 10 in
  let V7 := b32_lit 32 10 in
  let V9 := b32_lit 31 10 in
  let r := Quadratic.handleSetCal3 no_digits (Quadratic.setup ∅) (request3 V4 V7 V9) in
  let g := Quadratic.globals (fst r) in
  (V4 >? flit 0 1)%fl = true /\ (V7 >? flit 0 1)%fl = true /\ (V9 >? flit 0 1)%fl = true /\
  (fabs (V4 - V7) >=? flit 1 100)%fl = true /\ (fabs (V9 - V7) >=? flit 1 100)%fl = true /\
  (fabs (V9 - V4) >=? flit 1 100)%fl = true /\
  status (snd r) = 200 /\
  B2Q (Quadratic.calculatePH g V4) = Some (8407872 # 2097152)%Q /\
  within tol (401 # 100) (Quadratic.calculatePH g V4) = false /\
  within tol 7 (Quadratic.calculatePH g V7) = false /\
  within tol (918 # 100) (Quadratic.calculatePH g V9) = false.
Proof. vm_compute. repeat split. Qed.

(** ** Error kinds (C5) *)





(** ** Sampler and smoother (C7, C8) *)

(** C7, as amended.  Whatever the arithmetic, the sampler returns
    [((sum - mn) - mx) / (N - 2)] for the running sum, the running minimum
    started at [1e9] and the running maximum started at [-1e9];
    [readVoltageRawTrimmed] is the pass with [N = 20].  When every reading
    lies strictly between [-1e9] and [1e9], [mn] and [mx] are readings, no
    reading is below [mn] or above [mx] (binary32, any [N >= 3]).  In exact
    arithmetic the result is then the sum of the readings with exactly one
    least and one greatest entry removed, the other entries kept even when
    they repeat an extreme value, divided by [N - 2].  In the ADC branch,
    for twenty-five counts of the 12-bit converter (0 to 4095), the integer
    sum that is averaged is the sum of the counts with exactly one least
    and one greatest entry removed. *)
Theorem C7_trimmed_mean :
  (forall (F : Type) (O : FloatOps F) (N : nat) (src : nat -> F),
     trimmed_mean N src
     = ((running_sum (readings N src) (flit 0 1)
         - running_min (readings N src) (flit 1000000000 1)
         - running_max (readings N src) (- flit 1000000000 1))
        / flit (Z.of_nat N - 2) 1)%fl
     /\ TwoPage.readVoltageRawTrimmed src = trimmed_mean 20 src)
  /\
  (forall (N : nat) (src : nat -> spec_float),
     (3 <= N)%nat ->
     Forall (fun x => (- flit 1000000000 1 <? x)%fl = true
                      /\ (x <? flit 1000000000 1)%fl = true) (readings N src) ->
     exists mn mx : spec_float,
       In mn (readings N src) /\ In mx (readings N src) /\
       Forall (fun x => (mn <=? x)%fl = true /\ (x <=? mx)%fl = true) (readings N src) /\
       trimmed_mean N src
       = ((running_sum (readings N src) (flit 0 1) - mn - mx)
          / flit (Z.of_nat N - 2) 1)%fl)
  /\
  (forall (N : nat) (src : nat -> option Q) (qs : list Q),
     readings N src = map Some qs ->
     (3 <= N)%nat ->
     (forall q, In q qs -> (- (1000000000 # 1) < q < 1000000000 # 1)%Q) ->
     exists (lo hi : Q) (rest : list Q) (r : Q),
       Permutation qs (lo :: hi :: rest) /\
       (forall q, In q qs -> (lo <= q <= hi)%Q) /\
       trimmed_mean N src = Some r /\
       (r == Qsum rest / inject_Z (Z.of_nat N - 2))%Q)
  /\
  (forall (F : Type) (O : FloatOps F) (src : nat -> Z),
     (forall i, (i < 25)%nat -> 0 <= src i <= 4095) ->
     exists (lo hi : Z) (rest : list Z),
       Permutation (map src (seq 0 25)) (lo :: hi :: rest) /\
       (forall z, In z (map src (seq 0 25)) -> lo <= z <= hi) /\
       TwoPage.readVoltageRawTrimmed_adc src
       = ((flit (Zsum rest) 1 / flit 23 1) / TwoPage.ADC_MAX * TwoPage.ADC_VREF)%fl).
Proof.
  split; [|split; [|split]].
  - intros F O N src. split; [apply trimmed_mean_formula | reflexivity].
  - intros N src HN. apply b32_trimmed_extremes. lia.
  - exact exact_trimmed_mean.
  - intros F O. apply adc_trimmed_mean.
Qed.

Lemma C7_trimmed_mean_witness :
  exists (lo hi : Q) (rest : list Q) (r : Q),
    Permutation [2 # 1; 5 # 1; 2 # 1; 5 # 1; 3 # 1]%Q (lo :: hi :: rest) /\
    (forall q, In q [2 # 1; 5 # 1; 2 # 1; 5 # 1; 3 # 1]%Q -> (lo <= q <= hi)%Q) /\
    trimmed_mean 5 (fun i => Some (nth i [2 # 1; 5 # 1; 2 # 1; 5 # 1; 3 # 1]%Q 0%Q)) = Some r /\
    (r == Qsum rest / inject_Z (Z.of_nat 5 - 2))%Q.
Proof.
  refine (proj1 (proj2 (proj2 C7_trimmed_mean)) 5%nat
            (fun i => Some (nth i [2 # 1; 5 # 1; 2 # 1; 5 # 1; 3 # 1]%Q 0%Q))
            [2 # 1; 5 # 1; 2 # 1; 5 # 1; 3 # 1]%Q _ _ _).
  - reflexivity.
  - lia.
  - intros q Hq. cbn in Hq.
    repeat (destruct Hq as [<-|Hq]; [split; reflexivity|]). contradiction.
Defined.

(** Against C7 as stated: twenty readings of 2e9 V.  No reading is below
    the initial [mn = 1e9], so the value subtracted as the minimum is that
    sentinel and not a reading: the pass returns 37e9/18 and not
    (sum - min - max)/18 = 2e9 in exact arithmetic, and 2055554816 instead
    of 1999999488 in binary32. *)
Lemma C7_sentinel_is_not_a_reading :
  option_map (fun v => (Qeq_bool v (37000000000 # 18), Qeq_bool v (2000000000 # 1)))
    (trimmed_mean 20 (fun _ : nat => Some (2000000000 # 1)%Q))
  = Some (true, false)
  /\ readings 20 (fun _ : nat => Z2B 2000000000) = repeat (Z2B 2000000000) 20
  /\ B2Q (TwoPage.readVoltageRawTrimmed (fun _ : nat => Z2B 2000000000))
     = Some (2055554816 # 1)%Q
  /\ B2Q ((running_sum (readings 20 (fun _ : nat => Z2B 2000000000)) (flit 0 1)
           - Z2B 2000000000 - Z2B 2000000000) / flit 18 1)%fl
     = Some (1999999488 # 1)%Q
  /\ TwoPage.readVoltageRawTrimmed (fun _ : nat => Z2B 2000000000)
     <> ((running_sum (readings 20 (fun _ : nat => Z2B 2000000000)) (flit 0 1)
          - Z2B 2000000000 - Z2B 2000000000) / flit 18 1)%fl.
Proof. vm_compute. repeat split. discriminate. Qed.

(** C8, as amended.  The first update after construction or a reset
    returns its input bit for bit when the input is a finite float other
    than [-0.0]; for [-0.0] it returns [+0.0].  With a seeded filter an
    update returns [prior + alpha * (raw - prior)] and stores it.  Every
    save, hence every accepted fit request of either sketch, leaves the
    filter state NaN, so the next update seeds again. *)
Theorem C8_smoother_seed_and_reset :
  (forall x : spec_float, seedable x = true ->
     iir_update (flit 15 100) NAN x = (x, x))
  /\ iir_update (F := spec_float) (flit 15 100) NAN (S754_zero true)
     = (S754_zero false, S754_zero false)
  /\ (forall (g : TwoPage.Globals) (src : nat -> spec_float),
        fisnan (TwoPage.filtV_main g) = true ->
        seedable (TwoPage.readVoltageRawTrimmed src) = true ->
        snd (TwoPage.readVoltageMainSmoothed g src) = TwoPage.readVoltageRawTrimmed src /\
        TwoPage.filtV_main (fst (TwoPage.readVoltageMainSmoothed g src))
        = TwoPage.readVoltageRawTrimmed src)
  /\ (forall (g : TwoPage.Globals) (src : nat -> spec_float),
        fisnan (TwoPage.filtV_main g) = false ->
        let prior := TwoPage.filtV_main g in
        let raw := TwoPage.readVoltageRawTrimmed src in
        snd (TwoPage.readVoltageMainSmoothed g src)
        = (prior + TwoPage.MAIN_ALPHA * (raw - prior))%fl /\
        TwoPage.filtV_main (fst (TwoPage.readVoltageMainSmoothed g src))
        = (prior + TwoPage.MAIN_ALPHA * (raw - prior))%fl)
  /\ (forall (bd : TwoPage.Board) (V4 V7 V9 : spec_float),
        fisnan (TwoPage.filtV_main (TwoPage.globals (TwoPage.saveOneLine bd V4 V7))) = true /\
        fisnan (TwoPage.filtV_main (TwoPage.globals (TwoPage.saveTwoLines bd V4 V7 V9)))
        = true)
  /\ (forall (bd : TwoPage.Board) (args : gmap string spec_float),
        (status (snd (TwoPage.handleSetCal2 bd args)) = 200 ->
         fisnan (TwoPage.filtV_main (TwoPage.globals (fst (TwoPage.handleSetCal2 bd args))))
         = true) /\
        (status (snd (TwoPage.handleSetCal3 bd args)) = 200 ->
         fisnan (TwoPage.filtV_main (TwoPage.globals (fst (TwoPage.handleSetCal3 bd args))))
         = true))
  /\ (forall (fmt : spec_float -> nat -> string) (bd : Quadratic.Board)
             (args : gmap string spec_float),
        (status (snd (Quadratic.handleSetCal2 fmt bd args)) = 200 ->
         fisnan (Quadratic.filtV
                   (Quadratic.globals (fst (Quadratic.handleSetCal2 fmt bd args)))) = true) /\
        (status (snd (Quadratic.handleSetCal3 fmt bd args)) = 200 ->
         fisnan (Quadratic.filtV
                   (Quadratic.globals (fst (Quadratic.handleSetCal3 fmt bd args)))) = true)).
Proof.
  split; [exact iir_seed_exact|].
  split; [reflexivity|].
  split.
  { intros g src Hnan Hseed. unfold TwoPage.readVoltageMainSmoothed.
    rewrite (iir_update_seeds _ _ _ Hnan).
    assert (E : iir_update TwoPage.MAIN_ALPHA (TwoPage.readVoltageRawTrimmed src)
                  (TwoPage.readVoltageRawTrimmed src)
                = (TwoPage.readVoltageRawTrimmed src, TwoPage.readVoltageRawTrimmed src)).
    { rewrite <- (iir_update_seeds (O := binary32) TwoPage.MAIN_ALPHA S754_nan _ eq_refl).
      exact (iir_seed_exact _ Hseed). }
    rewrite E. split; reflexivity. }
  split.
  { intros g src Hnan prior raw. unfold TwoPage.readVoltageMainSmoothed.
    fold raw. fold prior. rewrite (iir_update_running _ _ _ Hnan). split; reflexivity. }
  split.
  { intros bd V4 V7 V9. split; reflexivity. }
  split.
  { intros bd args. split.
    - unfold TwoPage.handleSetCal2. split_ifs; cbn; intros H; try discriminate H; reflexivity.
    - unfold TwoPage.handleSetCal3. split_ifs; cbn; intros H; try discriminate H; reflexivity. }
  intros fmt bd args. split.
  - unfold Quadratic.handleSetCal2. split_ifs; cbn; intros H; try discriminate H; reflexivity.
  - unfold Quadratic.handleSetCal3. split_ifs; cbn; try (intros H; discriminate H).
    destruct (Quadratic.solveQuadraticFrom3Points _ _ _ _ _ _) as [[[a b] c]|]; cbn;
      intros H; try discriminate H; reflexivity.
Qed.

Lemma C8_smoother_seed_and_reset_witness :
  seedable (b32_lit 2100 1000) = true /\
  iir_update (flit 15 100) NAN (b32_lit 2100 1000) = (b32_lit 2100 1000, b32_lit 2100 1000).
Proof.
  split; [reflexivity|].
  apply (proj1 C8_smoother_seed_and_reset). reflexivity.
Defined.

(** Against C8 as stated: seeded with [+inf] the first update returns NaN
    ([inf - inf]), and seeded with [-0.0] it returns [+0.0]; a pass of
    twenty readings of the largest finite float has the trimmed mean [+inf]
    and [readVoltageMainSmoothed] then returns NaN. *)
Lemma C8_first_update_not_always_exact :
  snd (iir_update (F := spec_float) TwoPage.MAIN_ALPHA NAN (S754_infinity false))
    <> S754_infinity false
  /\ snd (iir_update (F := spec_float) TwoPage.MAIN_ALPHA NAN (S754_zero true))
    <> S754_zero true
  /\ TwoPage.readVoltageRawTrimmed overflowing_source = S754_infinity false
  /\ snd (TwoPage.readVoltageMainSmoothed TwoPage.boot_globals overflowing_source)
    <> TwoPage.readVoltageRawTrimmed overflowing_source.
Proof.
  repeat split; vm_compute; congruence.
Qed.
